(** * django_paddle_billing.admin: display getters and permission hooks

    A shallow embedding of [src/django_paddle_billing/admin.py].  The module
    registers one model-admin class per billing model; each class carries a
    [has_change_permission] hook and a few getters that unwrap the JSON
    payload [obj.data] of the record under display.

    The getters are dynamically typed Python, so the embedding starts with
    the Python values a JSON payload is made of, the exceptions the
    built-in operations raise on them, and those built-in operations
    themselves ([x[k]], [x.get(k, d)], [int(x)], [a / b], [f'{x}'],
    iteration).  Strings are sequences of code points below 256, one
    [ascii] per code point.  The two getters that read [obj.customer] go
    through the foreign key of the record, which loads the customer from
    the database on first access and keeps it on the record. *)

From Stdlib Require Import ZArith List String Ascii Bool Lia Permutation.
From Stdlib Require Import DecimalString Floats.
Import ListNotations.

Local Open Scope string_scope.
Local Open Scope Z_scope.

Set Warnings "-register-all".
Set Warnings "-inexact-float".

(** ** Python values *)

(** What [json.loads] builds, which is what a [JSONField] holds: [None],
    booleans, integers, floats (IEEE binary64, as [spec_float]), strings,
    lists and dicts.  A dict keeps its keys in insertion order; the keys of
    a JSON object are strings and are pairwise distinct. *)
Inductive value : Type :=
| VNone
| VBool (b : bool)
| VInt (n : Z)
| VFloat (f : spec_float)
| VStr (s : string)
| VList (l : list value)
| VDict (d : list (string * value)).

(** The built-in exceptions the operations below can raise, and
    [ObjectDoesNotExist] of the object-relational mapper, which the access
    to a foreign key raises; all of them derive from [Exception]. *)
Inductive exn : Type :=
| KeyError
| IndexError
| TypeError
| ValueError
| AttributeError
| OverflowError
| ZeroDivisionError
| ObjectDoesNotExist.

(** The outcome of evaluating an expression or calling a function. *)
Inductive outcome (A : Type) : Type :=
| Return (a : A)
| Raise (e : exn).

Arguments Return {A} a.
Arguments Raise {A} e.

Definition obind {A B : Type} (c : outcome A) (k : A -> outcome B) : outcome B :=
  match c with
  | Return a => k a
  | Raise e => Raise e
  end.

Fixpoint omap {A B : Type} (f : A -> outcome B) (l : list A) : outcome (list B) :=
  match l with
  | [] => Return []
  | x :: t =>
      obind (f x) (fun y => obind (omap f t) (fun ys => Return (y :: ys)))
  end.

(** ** Built-in operations *)

Module Py.

(** [bool(v)]: the truth value used by [if] and [and]. *)
Definition truthy (v : value) : bool :=
  match v with
  | VNone => false
  | VBool b => b
  | VInt n => negb (n =? 0)
  | VFloat (S754_zero _) => false
  | VFloat _ => true
  | VStr s => negb (String.eqb s "")
  | VList l => match l with [] => false | _ :: _ => true end
  | VDict d => match d with [] => false | _ :: _ => true end
  end.

Fixpoint lookup (k : string) (d : list (string * value)) : option value :=
  match d with
  | [] => None
  | (k', v) :: t => if String.eqb k' k then Some v else lookup k t
  end.

(** [o[k]] for a string key [k]. *)
Definition getitem (o : value) (k : string) : outcome value :=
  match o with
  | VDict d =>
      match lookup k d with
      | Some v => Return v
      | None => Raise KeyError
      end
  | _ => Raise TypeError
  end.

(** [o[i]] for an integer index [i]; a negative index counts from the end.
    A JSON object has no integer key, so a dict raises [KeyError]. *)
Definition getitem_int (o : value) (i : Z) : outcome value :=
  match o with
  | VList l =>
      let n := Z.of_nat (List.length l) in
      let j := if i <? 0 then i + n else i in
      if (0 <=? j) && (j <? n) then
        match nth_error l (Z.to_nat j) with
        | Some v => Return v
        | None => Raise IndexError
        end
      else Raise IndexError
  | VStr s =>
      let n := Z.of_nat (String.length s) in
      let j := if i <? 0 then i + n else i in
      if (0 <=? j) && (j <? n) then
        match String.get (Z.to_nat j) s with
        | Some c => Return (VStr (String c ""))
        | None => Raise IndexError
        end
      else Raise IndexError
  | VDict _ => Raise KeyError
  | _ => Raise TypeError
  end.

(** [o.get(k, default)]: only a dict has the method. *)
Definition get (o : value) (k : string) (default : value) : outcome value :=
  match o with
  | VDict d =>
      match lookup k d with
      | Some v => Return v
      | None => Return default
      end
  | _ => Raise AttributeError
  end.

(** [for x in o]: the elements of a list, the keys of a dict, the
    characters of a string. *)
Definition iter (o : value) : outcome (list value) :=
  match o with
  | VList l => Return l
  | VDict d => Return (map (fun kv => VStr (fst kv)) d)
  | VStr s => Return (map (fun c => VStr (String c "")) (list_ascii_of_string s))
  | _ => Raise TypeError
  end.

(** *** [int(x)] *)

Definition is_space (c : ascii) : bool :=
  let n := Z.of_nat (nat_of_ascii c) in
  ((9 <=? n) && (n <=? 13)) || (n =? 32) || (n =? 133) || (n =? 160).

Fixpoint lstrip (l : list ascii) : list ascii :=
  match l with
  | [] => []
  | c :: t => if is_space c then lstrip t else l
  end.

Definition strip (l : list ascii) : list ascii :=
  rev (lstrip (rev (lstrip l))).

Definition digit_val (c : ascii) : option Z :=
  let n := Z.of_nat (nat_of_ascii c) in
  if (48 <=? n) && (n <=? 57) then Some (n - 48) else None.

(** Decimal digits, single underscores allowed between two digits.
    [prev] tells whether the previous character was a digit; the result is
    the number read and how many digits it took. *)
Fixpoint int_digits (prev : bool) (acc count : Z) (l : list ascii)
  : option (Z * Z) :=
  match l with
  | [] => if prev then Some (acc, count) else None
  | c :: t =>
      match digit_val c with
      | Some d => int_digits true (10 * acc + d) (count + 1) t
      | None =>
          if (c =? "_")%char && prev then int_digits false acc count t
          else None
      end
  end.

(** CPython's default limit on the digits of a decimal string passed to
    [int] ([sys.get_int_max_str_digits()], since Python 3.11). *)
Definition int_max_str_digits : Z := 4300.

Definition int_of_str (s : string) : outcome Z :=
  let body := strip (list_ascii_of_string s) in
  let '(neg, ds) :=
    match body with
    | c :: t =>
        if (c =? "-")%char then (true, t)
        else if (c =? "+")%char then (false, t)
        else (false, body)
    | [] => (false, body)
    end in
  match int_digits false 0 0 ds with
  | Some (n, count) =>
      if count <=? int_max_str_digits
      then Return (if neg then - n else n)
      else Raise ValueError
  | None => Raise ValueError
  end.

(** [int(f)] for a float: truncation towards zero. *)
Definition int_of_float (f : spec_float) : outcome Z :=
  match f with
  | S754_zero _ => Return 0
  | S754_nan => Raise ValueError
  | S754_infinity _ => Raise OverflowError
  | S754_finite s m e =>
      let a := if 0 <=? e then Z.shiftl (Zpos m) e else Z.shiftr (Zpos m) (- e) in
      Return (if s then - a else a)
  end.

Definition int (v : value) : outcome Z :=
  match v with
  | VInt n => Return n
  | VBool b => Return (if b then 1 else 0)
  | VFloat f => int_of_float f
  | VStr s => int_of_str s
  | VNone | VList _ | VDict _ => Raise TypeError
  end.

(** *** [a / b] on integers *)

Definition prec : Z := 53.
Definition emax : Z := 1024.

(** True division of two integers: the exact quotient rounded once to
    the nearest binary64, ties to even; a quotient beyond the largest
    float raises [OverflowError]. *)
Definition truediv (a b : Z) : outcome spec_float :=
  if b =? 0 then Raise ZeroDivisionError
  else
    let s := xorb (a <? 0) (b <? 0) in
    if a =? 0 then Return (S754_zero s)
    else
      let '(q, e, loc) := SFdiv_core_binary prec emax (Z.abs a) 0 (Z.abs b) 0 in
      match binary_round_aux prec emax s q e loc with
      | S754_infinity _ => Raise OverflowError
      | f => Return f
      end.

(** *** [repr(f)] of a float

    CPython prints the shortest decimal string that reads back as the same
    float and, among the shortest ones, the one nearest to it.  A positive
    finite float is [m * 2^e] in the canonical form of binary64 ([m] below
    [2^53], [e] at least [-1074], [m] at least [2^52] unless [e] is
    [-1074]); a decimal is [d * 10^p]. *)

Definition str_of_Z (n : Z) : string :=
  NilZero.string_of_int (Z.to_int n).

(** Compares [d * 10^p] with [b * 2^e]. *)
Definition cmp_scaled (d p b e : Z) : comparison :=
  (d * 10 ^ Z.max p 0 * 2 ^ Z.max (- e) 0
   ?= b * 10 ^ Z.max (- p) 0 * 2 ^ Z.max e 0).

(** The integer part of [m * 2^e / 10^p]. *)
Definition floor_scaled (m e p : Z) : Z :=
  (m * 2 ^ Z.max e 0 * 10 ^ Z.max (- p) 0)
  / (2 ^ Z.max (- e) 0 * 10 ^ Z.max p 0).

Fixpoint log10_up (fuel : nat) (m e n : Z) : Z :=
  match fuel with
  | O => n
  | S k =>
      match cmp_scaled 1 (n + 1) m e with
      | Gt => n
      | _ => log10_up k m e (n + 1)
      end
  end.

(** The [n] with [10^n <= m * 2^e < 10^(n+1)], from an under-estimate
    that is at most two short. *)
Definition floor_log10 (m e : Z) : Z :=
  log10_up 4 m e ((Z.log2 m + e) * 30103 / 100000 - 1).

(** A [k]-digit decimal that reads back as [m * 2^e], if there is one:
    the neighbours of the float are one unit in the last place away (half
    a unit below a power of two), a decimal reads back as the float when
    it lies between the two midpoints, and a midpoint itself goes to the
    float with the even mantissa. *)
Definition candidate (m e k : Z) : option (Z * Z) :=
  let p := floor_log10 m e - k + 1 in
  let lo := floor_scaled m e p in
  let hi := lo + 1 in
  let even := Z.even m in
  let lo_b := if (m =? 2 ^ 52) && (-1074 <? e) then 4 * m - 1 else 4 * m - 2 in
  let hi_b := 4 * m + 2 in
  let above c := match c with Gt => true | Eq => even | Lt => false end in
  let below c := match c with Lt => true | Eq => even | Gt => false end in
  let inside d :=
    above (cmp_scaled d p lo_b (e - 2)) && below (cmp_scaled d p hi_b (e - 2)) in
  match inside lo, inside hi with
  | true, true =>
      match cmp_scaled (2 * lo + 1) p (2 * m) e with
      | Gt => Some (lo, p)
      | Lt => Some (hi, p)
      | Eq => Some (if Z.even lo then lo else hi, p)
      end
  | true, false => Some (lo, p)
  | false, true => Some (hi, p)
  | false, false => None
  end.

Fixpoint shortest (fuel : nat) (m e k : Z) : Z * Z :=
  match fuel with
  | O => let p := floor_log10 m e - k + 1 in (floor_scaled m e p, p)
  | S f =>
      match candidate m e k with
      | Some r => r
      | None => shortest f m e (k + 1)
      end
  end.

Fixpoint strip_zeros (fuel : nat) (d p : Z) : Z * Z :=
  match fuel with
  | O => (d, p)
  | S f => if (d mod 10 =? 0) && negb (d =? 0) then strip_zeros f (d / 10) (p + 1) else (d, p)
  end.

Fixpoint zeros (n : nat) : string :=
  match n with
  | O => ""
  | S k => String "0" (zeros k)
  end.

(** The digits [ds] with the decimal point after the first [decpt] of
    them: fixed notation when [-4 < decpt <= 16], with [.0] added to a
    whole number, and exponent notation with at least two exponent digits
    otherwise. *)
Definition format_digits (ds : string) (decpt : Z) : string :=
  let len := String.length ds in
  let n := Z.of_nat len in
  if (decpt <=? -4) || (16 <? decpt) then
    let x := decpt - 1 in
    let xs := str_of_Z (Z.abs x) in
    let xs := if Z.abs x <? 10 then String "0" xs else xs in
    let frac := if 1 <? n then String "." (substring 1 (len - 1) ds) else "" in
    let sign := if x <? 0 then "-"%char else "+"%char in
    append (substring 0 1 ds) (append frac (String "e" (String sign xs)))
  else if decpt <=? 0 then
    append "0." (append (zeros (Z.to_nat (- decpt))) ds)
  else if n <=? decpt then
    append ds (append (zeros (Z.to_nat (decpt - n))) ".0")
  else
    append (substring 0 (Z.to_nat decpt) ds)
           (String "." (substring (Z.to_nat decpt) (Z.to_nat (n - decpt)) ds)).

Definition float_repr (f : spec_float) : string :=
  match f with
  | S754_nan => "nan"
  | S754_infinity s => if s then "-inf" else "inf"
  | S754_zero s => if s then "-0.0" else "0.0"
  | S754_finite s m e =>
      let '(d, p) := shortest 17 (Zpos m) e 1 in
      let '(d, p) := strip_zeros 17 d p in
      let ds := str_of_Z d in
      let body := format_digits ds (Z.of_nat (String.length ds) + p) in
      if s then String "-" body else body
  end.

(** *** [repr(x)] and [str(x)] *)

Definition hex_digit (n : Z) : ascii :=
  match String.get (Z.to_nat n) "0123456789abcdef" with
  | Some c => c
  | None => "0"%char
  end.

(** Code points below 256 that [repr] writes as they are. *)
Definition printable (c : ascii) : bool :=
  let n := Z.of_nat (nat_of_ascii c) in
  ((32 <=? n) && (n <=? 126)) || ((161 <=? n) && negb (n =? 173)).

Definition repr_char (quote c : ascii) : string :=
  let n := Z.of_nat (nat_of_ascii c) in
  if (c =? quote)%char || (c =? "\")%char then String "\" (String c "")
  else if n =? 9 then "\t"
  else if n =? 10 then "\n"
  else if n =? 13 then "\r"
  else if printable c then String c ""
  else String "\" (String "x" (String (hex_digit (n / 16)) (String (hex_digit (n mod 16)) ""))).

Definition has_char (c : ascii) (s : string) : bool :=
  existsb (Ascii.eqb c) (list_ascii_of_string s).

(** Single quotes, unless the string has a single quote and no double
    quote. *)
Definition repr_str (s : string) : string :=
  let quote := if has_char "'" s && negb (has_char "034" s) then "034"%char else "'"%char in
  String quote
    (append (String.concat "" (map (repr_char quote) (list_ascii_of_string s)))
            (String quote "")).

(** [str(n)] of an integer: CPython refuses to write an integer of more
    digits than [int_max_str_digits]. *)
Definition str_of_int (n : Z) : outcome string :=
  if Z.of_nat (String.length (str_of_Z (Z.abs n))) <=? int_max_str_digits
  then Return (str_of_Z n)
  else Raise ValueError.

(** [repr(x)]; the elements of a list and the items of a dict are written
    in order, and the first that cannot be written raises. *)
Fixpoint repr (v : value) : outcome string :=
  match v with
  | VNone => Return "None"
  | VBool b => Return (if b then "True" else "False")
  | VInt n => str_of_int n
  | VFloat f => Return (float_repr f)
  | VStr s => Return (repr_str s)
  | VList l =>
      let fix elems (l : list value) : outcome (list string) :=
        match l with
        | [] => Return []
        | x :: t =>
            obind (repr x) (fun s =>
            obind (elems t) (fun ss => Return (s :: ss)))
        end in
      obind (elems l) (fun ss =>
      Return (append "[" (append (String.concat ", " ss) "]")))
  | VDict d =>
      let fix items (d : list (string * value)) : outcome (list string) :=
        match d with
        | [] => Return []
        | (k, x) :: t =>
            obind (repr x) (fun s =>
            obind (items t) (fun ss =>
            Return (append (repr_str k) (append ": " s) :: ss)))
        end in
      obind (items d) (fun ss =>
      Return (append "{" (append (String.concat ", " ss) "}")))
  end.

(** [str(x)], which is also what an f-string field [{x}] writes. *)
Definition str (v : value) : outcome string :=
  match v with
  | VStr s => Return s
  | _ => repr v
  end.

End Py.

(** ** Records and application state *)

(** Modelled from the spec: the models belong to the persistence layer
    ([django_paddle_billing.models]), which this file only imports.  A
    customer row has a string primary key [id] and an [email]. *)
Module Customer.
Record t : Type := { id : string; email : string }.
End Customer.

(** Modelled from the spec: a model instance as the getters see it.
    [data] is the JSON payload ([VNone] for a null payload).  The foreign
    key to the customer of an address or a transaction is the column
    [customer_id] ([None] when it is empty), the declaration [null=True]
    or not of the field, and the cache the instance keeps of the related
    customer: [None] while [obj.customer] has not been read, [Some r]
    once it has, with [r] what the read found. *)
Record instance : Type := {
  data : value;
  customer_id : option string;
  customer_null : bool;
  customer_cache : option (option Customer.t)
}.

(** Modelled from the spec: the Product model, also of the persistence
    layer.  A product row has a string primary key [id] and a [name]. *)
Module Product.
Record t : Type := { id : string; name : string }.
End Product.

(** What the module reads besides its arguments: [INSTALLED_APPS] of the
    project settings, the read-only toggle [ADMIN_READONLY] of the
    application settings ([django_paddle_billing.settings], not part of
    this file) and the rows of the Product and Customer tables of a
    database that answers its queries. *)
Record world : Type := {
  INSTALLED_APPS : list string;
  ADMIN_READONLY : bool;
  Product_objects : list Product.t;
  Customer_objects : list Customer.t
}.

(** What a call can read and write: the application state and the object
    it is passed. *)
Record state : Type := {
  app : world;
  this : option instance
}.

(** Computations that may read or write the state and may raise. *)
Definition M (A : Type) : Type := state -> outcome A * state.

Definition ret {A : Type} (a : A) : M A := fun s => (Return a, s).

Definition bind {A B : Type} (c : M A) (k : A -> M B) : M B :=
  fun s =>
    match c s with
    | (Return a, s') => k a s'
    | (Raise e, s') => (Raise e, s')
    end.

Definition lift {A : Type} (c : outcome A) : M A := fun s => (c, s).

(** [try: c  except Exception: h] *)
Definition try_except {A : Type} (c : M A) (h : M A) : M A :=
  fun s =>
    match c s with
    | (Return a, s') => (Return a, s')
    | (Raise _, s') => h s'
    end.

(** A method called with [obj] in the application state [w]: the body
    runs on the two, and the call ends with its outcome and with what has
    become of them. *)
Definition method {A : Type} (obj : option instance) (body : M A) (w : world)
  : outcome A * state :=
  body {| app := w; this := obj |}.

Declare Scope py_scope.
Delimit Scope py_scope with py.
Notation "x <- c ;; k" := (bind c (fun x => k))
  (at level 61, c at next level, right associativity) : py_scope.
Local Open Scope py_scope.

Definition getitem (o : value) (k : string) : M value := lift (Py.getitem o k).
Definition getitem_int (o : value) (i : Z) : M value := lift (Py.getitem_int o i).
Definition get (o : value) (k : string) (default : value) : M value :=
  lift (Py.get o k default).

(** A field [{x}] of an f-string. *)
Definition format (x : value) : M string := lift (Py.str x).

(** The text [f'{a} {b}'] of two fields already written. *)
Definition spaced (a b : string) : value := VStr (append a (append " " b)).

(** [app_settings.ADMIN_READONLY] *)
Definition app_settings_ADMIN_READONLY : M bool :=
  fun s => (Return (ADMIN_READONLY (app s)), s).

(** The rows of a query in the order of their primary key, the order in
    which the database scans the key for an unordered query. *)
Fixpoint insert_by_id (p : Product.t) (l : list Product.t) : list Product.t :=
  match l with
  | [] => [p]
  | q :: t =>
      if String.leb (Product.id p) (Product.id q) then p :: l
      else q :: insert_by_id p t
  end.

Fixpoint sort_by_id (l : list Product.t) : list Product.t :=
  match l with
  | [] => []
  | p :: t => insert_by_id p (sort_by_id t)
  end.

(** [Product.objects.filter(id__in=ids)], evaluated: the lookup drops
    [None] from [ids] and writes the other values as strings, which can
    raise; the query yields the rows whose primary key is among them,
    each once.  Errors of the database itself are not modelled. *)
Definition Product_objects_filter_id_in (ids : list value) : M (list Product.t) :=
  fun s =>
    let given := filter (fun v => match v with VNone => false | _ => true end) ids in
    match omap Py.str given with
    | Return wanted =>
        (Return (sort_by_id
                   (filter (fun p => existsb (String.eqb (Product.id p)) wanted)
                           (Product_objects (app s)))), s)
    | Raise e => (Raise e, s)
    end.

(** [obj.customer]: the related customer the instance has cached, or
    else the row of the Customer table that [customer_id] names, which
    the instance then caches; [ObjectDoesNotExist] when there is no such
    row, and when the key is empty although the field does not allow
    it. *)
Definition obj_customer : M (option Customer.t) :=
  fun s =>
    match this s with
    | None => (Raise AttributeError, s)
    | Some o =>
        let found (r : option Customer.t) (s' : state) :=
          match r with
          | Some c => (Return (Some c), s')
          | None =>
              if customer_null o then (Return None, s')
              else (Raise ObjectDoesNotExist, s')
          end in
        let cached (r : option Customer.t) :=
          {| app := app s;
             this := Some {| data := data o;
                             customer_id := customer_id o;
                             customer_null := customer_null o;
                             customer_cache := Some r |} |} in
        match customer_cache o with
        | Some r => found r s
        | None =>
            match customer_id o with
            | Some k =>
                match find (fun c => String.eqb (Customer.id c) k)
                           (Customer_objects (app s)) with
                | Some c => found (Some c) (cached (Some c))
                | None => (Raise ObjectDoesNotExist, s)
                end
            | None => found None (cached None)
            end
        end
    end.

(** [obj and obj.data]: the payload when both are truthy. *)
Definition obj_and_data (obj : option instance) : option value :=
  match obj with
  | Some o => if Py.truthy (data o) then Some (data o) else None
  | None => None
  end.

(** ** Import-time choice of the admin base classes *)

Inductive admin_package : Type :=
| unfold_admin
| django_contrib_admin.

Record admin_bases : Type := {
  ModelAdmin : admin_package;
  StackedInline : admin_package;
  TabularInline : admin_package
}.

Definition import_admin_bases : world -> outcome admin_bases * world :=
  fun w =>
    if existsb (String.eqb "unfold") (INSTALLED_APPS w)
    then (Return {| ModelAdmin := unfold_admin;
                    StackedInline := unfold_admin;
                    TabularInline := unfold_admin |}, w)
    else (Return {| ModelAdmin := django_contrib_admin;
                    StackedInline := django_contrib_admin;
                    TabularInline := django_contrib_admin |}, w).

(** ** The registered admin classes *)

(** The models [admin.register] is applied to. *)
Inductive model : Type :=
| Address
| Business
| Product
| Price
| Subscription
| Customer
| Transaction.

Module AddressAdmin.

Definition has_change_permission {Request : Type}
    (request : Request) (obj : option instance)
  : world -> outcome bool * state :=
  method obj app_settings_ADMIN_READONLY.

Definition customer_email (obj : option instance)
  : world -> outcome value * state :=
  method obj
    match obj with
    | Some _ =>
        c <- obj_customer ;;
        match c with
        | Some _ =>
            c' <- obj_customer ;;
            match c' with
            | Some customer => ret (VStr (Customer.email customer))
            | None => lift (Raise AttributeError)
            end
        | None => ret (VStr "")
        end
    | None => ret (VStr "")
    end.

Definition postal_code (obj : option instance)
  : world -> outcome value * state :=
  method obj
    match obj_and_data obj with
    | Some d => get d "postal_code" (VStr "")
    | None => ret (VStr "")
    end.

Definition status (obj : option instance)
  : world -> outcome value * state :=
  method obj
    match obj_and_data obj with
    | Some d => get d "status" (VStr "")
    | None => ret (VStr "")
    end.

End AddressAdmin.

Module BusinessAdmin.

Definition has_change_permission {Request : Type}
    (request : Request) (obj : option instance)
  : world -> outcome bool * state :=
  method obj (r <- app_settings_ADMIN_READONLY ;; ret (negb r)).

End BusinessAdmin.

Module ProductAdmin.

Definition has_change_permission {Request : Type}
    (request : Request) (obj : option instance)
  : world -> outcome bool * state :=
  method obj (r <- app_settings_ADMIN_READONLY ;; ret (negb r)).

End ProductAdmin.

Module PriceAdmin.

Definition has_change_permission {Request : Type}
    (request : Request) (obj : option instance)
  : world -> outcome bool * state :=
  method obj (r <- app_settings_ADMIN_READONLY ;; ret (negb r)).

Definition billing_cycle (obj : option instance)
  : world -> outcome value * state :=
  method obj
    match obj_and_data obj with
    | Some d =>
        c <- get d "billing_cycle" VNone ;;
        if Py.truthy c then
          b1 <- getitem d "billing_cycle" ;;
          frequency <- getitem b1 "frequency" ;;
          f <- format frequency ;;
          b2 <- getitem d "billing_cycle" ;;
          interval <- getitem b2 "interval" ;;
          i <- format interval ;;
          ret (spaced f i)
        else ret (VStr "")
    | None => ret (VStr "")
    end.

(** No [return] follows the [if]: the function falls off its end and
    returns [None]. *)
Definition description (obj : option instance)
  : world -> outcome value * state :=
  method obj
    match obj_and_data obj with
    | Some d => get d "description" (VStr "")
    | None => ret VNone
    end.

Definition name (obj : option instance)
  : world -> outcome value * state :=
  method obj
    match obj_and_data obj with
    | Some d => get d "name" (VStr "")
    | None => ret VNone
    end.

Definition status (obj : option instance)
  : world -> outcome value * state :=
  method obj
    match obj_and_data obj with
    | Some d => get d "status" (VStr "")
    | None => ret VNone
    end.

Definition trial_period (obj : option instance)
  : world -> outcome value * state :=
  method obj
    match obj_and_data obj with
    | Some d =>
        c <- get d "trial_period" VNone ;;
        if Py.truthy c then
          t1 <- getitem d "trial_period" ;;
          frequency <- getitem t1 "frequency" ;;
          f <- format frequency ;;
          t2 <- getitem d "trial_period" ;;
          interval <- getitem t2 "interval" ;;
          i <- format interval ;;
          ret (spaced f i)
        else ret (VStr "")
    | None => ret (VStr "")
    end.

Definition unit_price (obj : option instance)
  : world -> outcome value * state :=
  method obj
    match obj_and_data obj with
    | Some d =>
        c <- get d "unit_price" VNone ;;
        if Py.truthy c then
          u1 <- getitem d "unit_price" ;;
          amount <- getitem u1 "amount" ;;
          n <- lift (Py.int amount) ;;
          q <- lift (Py.truediv n 100) ;;
          a <- format (VFloat q) ;;
          u2 <- getitem d "unit_price" ;;
          currency_code <- getitem u2 "currency_code" ;;
          code <- format currency_code ;;
          ret (spaced a code)
        else ret (VStr "")
    | None => ret (VStr "")
    end.

End PriceAdmin.

Module SubscriptionAdmin.

Definition has_change_permission {Request : Type}
    (request : Request) (obj : option instance)
  : world -> outcome bool * state :=
  method obj (r <- app_settings_ADMIN_READONLY ;; ret (negb r)).

End SubscriptionAdmin.

Module CustomerAdmin.

Definition has_change_permission {Request : Type}
    (request : Request) (obj : option instance)
  : world -> outcome bool * state :=
  method obj (r <- app_settings_ADMIN_READONLY ;; ret (negb r)).

Definition status (obj : option instance)
  : world -> outcome value * state :=
  method obj
    match obj_and_data obj with
    | Some d => get d "status" (VStr "")
    | None => ret VNone
    end.

End CustomerAdmin.

Module TransactionAdmin.

Definition has_change_permission {Request : Type}
    (request : Request) (obj : option instance)
  : world -> outcome bool * state :=
  method obj (r <- app_settings_ADMIN_READONLY ;; ret (negb r)).

Definition customer_email (obj : option instance)
  : world -> outcome value * state :=
  method obj
    match obj with
    | Some _ =>
        c <- obj_customer ;;
        match c with
        | Some _ =>
            c' <- obj_customer ;;
            match c' with
            | Some customer => ret (VStr (Customer.email customer))
            | None => lift (Raise AttributeError)
            end
        | None => ret (VStr "")
        end
    | None => ret (VStr "")
    end.

Definition payment_amount (obj : option instance)
  : world -> outcome value * state :=
  method obj
    match obj_and_data obj with
    | Some d =>
        try_except
          (details <- getitem d "details" ;;
           totals <- getitem details "totals" ;;
           total <- getitem totals "total" ;;
           n <- lift (Py.int total) ;;
           q <- lift (Py.truediv n 100) ;;
           ret (VFloat q))
          (ret (VStr ""))
    | None => ret (VStr "")
    end.

Definition payment_method (obj : option instance)
  : world -> outcome value * state :=
  method obj
    match obj_and_data obj with
    | Some d =>
        try_except
          (p1 <- getitem d "payments" ;;
           f1 <- getitem_int p1 0 ;;
           m1 <- getitem f1 "method_details" ;;
           c1 <- getitem m1 "card" ;;
           type <- getitem c1 "type" ;;
           t <- format type ;;
           p2 <- getitem d "payments" ;;
           f2 <- getitem_int p2 0 ;;
           m2 <- getitem f2 "method_details" ;;
           c2 <- getitem m2 "card" ;;
           last4 <- getitem c2 "last4" ;;
           l <- format last4 ;;
           ret (spaced t l))
          (ret (VStr ""))
    | None => ret (VStr "")
    end.

Definition date_paid (obj : option instance)
  : world -> outcome value * state :=
  method obj
    match obj_and_data obj with
    | Some d =>
        try_except
          (payments <- getitem d "payments" ;;
           first <- getitem_int payments 0 ;;
           getitem first "captured_at")
          (ret (VStr ""))
    | None => ret (VStr "")
    end.

Definition products (obj : option instance)
  : world -> outcome value * state :=
  method obj
    match obj_and_data obj with
    | Some d =>
        items <- get d "items" (VList []) ;;
        elems <- lift (Py.iter items) ;;
        ids <- lift (omap (fun item =>
                 obind (Py.getitem item "price") (fun price =>
                 Py.getitem price "product_id")) elems) ;;
        products <- Product_objects_filter_id_in ids ;;
        ret (VStr (String.concat ", " (map Product.name products)))
    | None => ret (VStr "")
    end.

Definition status (obj : option instance)
  : world -> outcome value * state :=
  method obj
    match obj_and_data obj with
    | Some d => get d "status" (VStr "")
    | None => ret (VStr "")
    end.

End TransactionAdmin.

(** [@admin.register(model)]: the permission hook of the class registered
    for each model. *)
Definition registered_has_change_permission {Request : Type} (m : model)
  : Request -> option instance -> world -> outcome bool * state :=
  match m with
  | Address => AddressAdmin.has_change_permission
  | Business => BusinessAdmin.has_change_permission
  | Product => ProductAdmin.has_change_permission
  | Price => PriceAdmin.has_change_permission
  | Subscription => SubscriptionAdmin.has_change_permission
  | Customer => CustomerAdmin.has_change_permission
  | Transaction => TransactionAdmin.has_change_permission
  end.

(** The display getters of the module, by class. *)
Inductive getter : Type :=
| Address_customer_email
| Address_postal_code
| Address_status
| Price_billing_cycle
| Price_description
| Price_name
| Price_status
| Price_trial_period
| Price_unit_price
| Customer_status
| Transaction_customer_email
| Transaction_payment_amount
| Transaction_payment_method
| Transaction_date_paid
| Transaction_products
| Transaction_status.

Definition call (g : getter)
  : option instance -> world -> outcome value * state :=
  match g with
  | Address_customer_email => AddressAdmin.customer_email
  | Address_postal_code => AddressAdmin.postal_code
  | Address_status => AddressAdmin.status
  | Price_billing_cycle => PriceAdmin.billing_cycle
  | Price_description => PriceAdmin.description
  | Price_name => PriceAdmin.name
  | Price_status => PriceAdmin.status
  | Price_trial_period => PriceAdmin.trial_period
  | Price_unit_price => PriceAdmin.unit_price
  | Customer_status => CustomerAdmin.status
  | Transaction_customer_email => TransactionAdmin.customer_email
  | Transaction_payment_amount => TransactionAdmin.payment_amount
  | Transaction_payment_method => TransactionAdmin.payment_method
  | Transaction_date_paid => TransactionAdmin.date_paid
  | Transaction_products => TransactionAdmin.products
  | Transaction_status => TransactionAdmin.status
  end.

(** ** Vocabulary of the properties *)

(** A computation is read-only when it hands back the state it was
    given, whether it returns or raises. *)
Definition readonly {A : Type} (c : M A) : Prop :=
  forall s, snd (c s) = s.

(** [cache_filled o o']: the instance [o'] is [o] with, at most, its
    empty foreign-key cache filled; a cache that holds something keeps
    it. *)
Definition cache_filled (o o' : instance) : Prop :=
  data o' = data o
  /\ customer_id o' = customer_id o
  /\ customer_null o' = customer_null o
  /\ (customer_cache o' = customer_cache o
      \/ (customer_cache o = None /\ exists r, customer_cache o' = Some r)).

(** The same between the object passed to a call and the object after
    it. *)
Definition object_kept_but_cache (obj obj' : option instance) : Prop :=
  match obj, obj' with
  | None, None => True
  | Some o, Some o' => cache_filled o o'
  | _, _ => False
  end.

(** A computation respects a relation on states when related states give
    the same outcome and related final states. *)
Definition respects {A : Type} (R : state -> state -> Prop) (c : M A) : Prop :=
  forall s1 s2, R s1 s2 ->
    fst (c s1) = fst (c s2) /\ R (snd (c s1)) (snd (c s2)).

(** States with the same object. *)
Definition same_object (s1 s2 : state) : Prop := this s1 = this s2.

(** States with the same object and the same Product rows. *)
Definition same_products (s1 s2 : state) : Prop :=
  this s1 = this s2 /\ Product_objects (app s1) = Product_objects (app s2).

(** States with the same Product rows. *)
Definition same_table (s1 s2 : state) : Prop :=
  Product_objects (app s1) = Product_objects (app s2).

(** States with the same object and the same Customer rows. *)
Definition same_customers (s1 s2 : state) : Prop :=
  this s1 = this s2 /\ Customer_objects (app s1) = Customer_objects (app s2).

(** Every value a computation can return satisfies [P]. *)
Definition returns_only {A : Type} (P : A -> Prop) (c : M A) : Prop :=
  forall w a, fst (c w) = Return a -> P a.

(** When [obj] or [obj.data] is falsy. *)
Definition no_payload (obj : option instance) : Prop :=
  match obj with
  | None => True
  | Some o => Py.truthy (data o) = false
  end.

(** A float other than an infinity. *)
Definition finite_or_zero (f : spec_float) : Prop :=
  match f with
  | S754_infinity _ => False
  | _ => True
  end.

Definition is_str (v : value) : Prop := exists s, v = VStr s.

(** The getters that hand a stored value on as it is. *)
Definition pass_through (g : getter) : bool :=
  match g with
  | Address_postal_code | Address_status
  | Price_description | Price_name | Price_status
  | Customer_status
  | Transaction_date_paid | Transaction_status => true
  | _ => false
  end.

(** The getters whose body ends with the guarded [return]. *)
Definition falls_off_end (g : getter) : bool :=
  match g with
  | Price_description | Price_name | Price_status | Customer_status => true
  | _ => false
  end.

(** The key of the payload a getter starts from; [customer_email] reads
    no payload. *)
Definition payload_key (g : getter) : option string :=
  match g with
  | Address_customer_email | Transaction_customer_email => None
  | Address_postal_code => Some "postal_code"
  | Address_status | Price_status | Customer_status | Transaction_status =>
      Some "status"
  | Price_billing_cycle => Some "billing_cycle"
  | Price_description => Some "description"
  | Price_name => Some "name"
  | Price_trial_period => Some "trial_period"
  | Price_unit_price => Some "unit_price"
  | Transaction_payment_amount => Some "details"
  | Transaction_payment_method | Transaction_date_paid => Some "payments"
  | Transaction_products => Some "items"
  end.

(** The getters whose lookups sit in [try: ... except Exception:]. *)
Definition catches_exceptions (g : getter) : bool :=
  match g with
  | Transaction_payment_amount | Transaction_payment_method
  | Transaction_date_paid => true
  | _ => false
  end.

Definition reads_customer (g : getter) : bool :=
  match g with
  | Address_customer_email | Transaction_customer_email => true
  | _ => false
  end.

(** The getters that call [obj.data.get] as it is: on the payload and
    outside any [try]. *)
Definition calls_get_unguarded (g : getter) : bool :=
  negb (catches_exceptions g) && negb (reads_customer g).

(** The getters that are one [obj.data.get(key, "")]. *)
Definition plain_get (g : getter) : bool :=
  pass_through g && negb (catches_exceptions g).

Definition is_dict (v : value) : bool :=
  match v with
  | VDict _ => true
  | _ => false
  end.

(** A float with a value: a zero or a finite non-zero float. *)
Definition finite_float (f : spec_float) : Prop :=
  match f with
  | S754_zero _ | S754_finite _ _ _ => True
  | S754_infinity _ | S754_nan => False
  end.

(** An item of a transaction that names the product [id]:
    [item["price"]["product_id"] == id]. *)
Definition item_names (item : value) (id : string) : Prop :=
  exists (fields price : list (string * value)),
    item = VDict fields
    /\ Py.lookup "price" fields = Some (VDict price)
    /\ Py.lookup "product_id" price = Some (VStr id).

(** The names of the rows of the table whose key is among [ids], as a
    query yields them, separated by a comma and a space. *)
Definition names_of (ids : list string) (table : list Product.t) : string :=
  String.concat ", "
    (map Product.name
         (sort_by_id
            (filter (fun p => existsb (String.eqb (Product.id p)) ids) table))).

(** [reads_total obj q]: the payload of [obj] has a
    [details.totals.total] that [int] reads, and [q] is its hundredth. *)
Definition reads_total (obj : option instance) (q : spec_float) : Prop :=
  exists (o : instance) (details totals total : value) (n : Z),
    obj = Some o
    /\ Py.truthy (data o) = true
    /\ Py.getitem (data o) "details" = Return details
    /\ Py.getitem details "totals" = Return totals
    /\ Py.getitem totals "total" = Return total
    /\ Py.int total = Return n
    /\ Py.truediv n 100 = Return q.

(** [stored g obj x]: the payload of [obj] holds [x] where the
    pass-through getter [g] looks: under its key, and for [date_paid]
    under [captured_at] of the first of the payments. *)
Definition stored (g : getter) (obj : option instance) (x : value) : Prop :=
  exists o : instance,
    obj = Some o
    /\ Py.truthy (data o) = true
    /\ match g with
       | Transaction_date_paid =>
           exists payments first : value,
             Py.getitem (data o) "payments" = Return payments
             /\ Py.getitem_int payments 0 = Return first
             /\ Py.getitem first "captured_at" = Return x
       | _ =>
           exists (k : string) (d : list (string * value)),
             payload_key g = Some k
             /\ data o = VDict d
             /\ Py.lookup k d = Some x
       end.

(** What a getter returns, when it returns: [payment_amount] the float it
    reads and otherwise the empty string; a pass-through getter the
    value stored and otherwise the empty string, with nothing said of the
    getters without a final [return] on a missing payload; any other
    getter a string. *)
Definition result_kind (g : getter) (obj : option instance) (v : value) : Prop :=
  match g with
  | Transaction_payment_amount =>
      (exists q, reads_total obj q /\ v = VFloat q)
      \/ ((forall q, ~ reads_total obj q) /\ v = VStr "")
  | _ =>
      if pass_through g then
        stored g obj v
        \/ ((forall x, ~ stored g obj x)
            /\ (v = VStr "" \/ (falls_off_end g = true /\ no_payload obj)))
      else is_str v
  end.

(** What [customer_email] makes of the outcome of [obj.customer]. *)
Definition email_of (r : outcome (option Customer.t)) : outcome value :=
  match r with
  | Return (Some c) => Return (VStr (Customer.email c))
  | Return None => Return (VStr "")
  | Raise e => Raise e
  end.

(** The getters that format a sub-object of the payload when it is there:
    [if obj and obj.data and obj.data.get(key):]. *)
Definition formats_optional_object (g : getter) : bool :=
  match g with
  | Price_billing_cycle | Price_trial_period | Price_unit_price => true
  | _ => false
  end.

(** A transaction item for the product [id], and a table of two
    products. *)
Definition item_for (id : string) : value :=
  VDict [("quantity", VInt 1); ("price", VDict [("product_id", VStr id)])].

(** A record with the payload [d], no customer and nothing cached. *)
Definition plain (d : value) : instance :=
  {| data := d;
     customer_id := None;
     customer_null := false;
     customer_cache := None |}.

(** A record with the payload [d] that points to the customer [k]. *)
Definition of_customer (k : string) (d : value) : instance :=
  {| data := d;
     customer_id := Some k;
     customer_null := false;
     customer_cache := None |}.

Definition transaction_of (items : list value) : instance :=
  plain (VDict [("status", VStr "completed"); ("items", VList items)]).

Definition two_products : world :=
  {| INSTALLED_APPS := ["unfold"];
     ADMIN_READONLY := false;
     Product_objects := [ {| Product.id := "pro_02"; Product.name := "Plus" |};
                          {| Product.id := "pro_01"; Product.name := "Basic" |} ];
     Customer_objects := [] |}.

(** A decimal string too long for its hundredth to be a float: a one
    followed by 400 zeros. *)
Definition huge_amount : string := String "1" (Py.zeros 400).

(** Sample records. *)
Definition record_of (d : value) : option instance := Some (plain d).

Definition empty_world : world :=
  {| INSTALLED_APPS := [];
     ADMIN_READONLY := true;
     Product_objects := [];
     Customer_objects := [] |}.

Definition basic_world : world :=
  {| INSTALLED_APPS := ["django.contrib.admin"; "django_paddle_billing"];
     ADMIN_READONLY := true;
     Product_objects := [ {| Product.id := "pro_01"; Product.name := "Basic" |} ];
     Customer_objects := [ {| Customer.id := "ctm_01";
                              Customer.email := "ada@example.org" |} ] |}.

(** An integer of 4301 digits, one more than [str] writes. *)
Definition huge_int : Z := 10 ^ 4300.

(** * Properties *)

(** ** Reasoning about computations in [M] *)

Ltac unfold_getters :=
  unfold AddressAdmin.customer_email, AddressAdmin.postal_code,
    AddressAdmin.status, PriceAdmin.billing_cycle, PriceAdmin.description,
    PriceAdmin.name, PriceAdmin.status, PriceAdmin.trial_period,
    PriceAdmin.unit_price, CustomerAdmin.status,
    TransactionAdmin.customer_email, TransactionAdmin.payment_amount,
    TransactionAdmin.payment_method, TransactionAdmin.date_paid,
    TransactionAdmin.products, TransactionAdmin.status.

Ltac run_getter :=
  cbv beta iota delta [method bind ret lift get getitem getitem_int format
                       try_except Py.get Py.getitem fst snd].

Section Frame.

Lemma readonly_ret {A : Type} (a : A) : readonly (ret a).
Proof. intro s. reflexivity. Qed.

Lemma readonly_lift {A : Type} (c : outcome A) : readonly (lift c).
Proof. intro s. reflexivity. Qed.

Lemma readonly_bind {A B : Type} (c : M A) (k : A -> M B) :
  readonly c -> (forall a, readonly (k a)) -> readonly (bind c k).
Proof.
  intros Hc Hk s. unfold bind.
  specialize (Hc s). destruct (c s) as [[a | e] s']; simpl in Hc; subst s'.
  - apply Hk.
  - reflexivity.
Qed.

Lemma readonly_try_except {A : Type} (c h : M A) :
  readonly c -> readonly h -> readonly (try_except c h).
Proof.
  intros Hc Hh s. unfold try_except.
  specialize (Hc s). destruct (c s) as [[a | e] s']; simpl in Hc; subst s'.
  - reflexivity.
  - apply Hh.
Qed.

Lemma readonly_filter (ids : list value) :
  readonly (Product_objects_filter_id_in ids).
Proof.
  intro s. unfold Product_objects_filter_id_in.
  match goal with |- context [omap ?f ?l] => destruct (omap f l) end;
    reflexivity.
Qed.

Lemma readonly_setting : readonly app_settings_ADMIN_READONLY.
Proof. intro s. reflexivity. Qed.

End Frame.

Ltac readonly_step :=
  match goal with
  | |- readonly (bind _ _) => apply readonly_bind; [ | intro ]
  | |- readonly (if ?b then _ else _) => destruct b
  | |- readonly (match ?x with _ => _ end) => destruct x
  | |- readonly (ret _) => apply readonly_ret
  | |- readonly (lift _) => apply readonly_lift
  | |- readonly (getitem _ _) => apply readonly_lift
  | |- readonly (getitem_int _ _) => apply readonly_lift
  | |- readonly (get _ _ _) => apply readonly_lift
  | |- readonly (format _) => apply readonly_lift
  | |- readonly (try_except _ _) => apply readonly_try_except
  | |- readonly (Product_objects_filter_id_in _) => apply readonly_filter
  | |- readonly app_settings_ADMIN_READONLY => apply readonly_setting
  end.

Lemma existsb_eqb_In (x : string) (l : list string) :
  existsb (String.eqb x) l = true <-> In x l.
Proof.
  rewrite existsb_exists. split.
  - intros [y [Hin Heq]]. apply String.eqb_eq in Heq. now subst.
  - intro Hin. exists x. split; [assumption | apply String.eqb_refl].
Qed.


Lemma getter_eq_dec (g1 g2 : getter) : {g1 = g2} + {g1 <> g2}.
Proof. decide equality. Qed.

(** ** The foreign key *)

(** What [obj.customer] leaves of the object: the same record, its cache
    filled if it was empty. *)
Lemma obj_customer_state (s : state) :
  app (snd (obj_customer s)) = app s
  /\ object_kept_but_cache (this s) (this (snd (obj_customer s))).
Proof.
  unfold obj_customer, object_kept_but_cache, cache_filled.
  destruct (this s) as [o | ] eqn:Ho; simpl; [ | rewrite Ho; now split].
  destruct (customer_cache o) as [[c | ] | ] eqn:Hc; simpl;
    [ | destruct (customer_null o) eqn:Hn
      | destruct (customer_id o) as [k | ] eqn:Hk;
        [ destruct (find (fun c => String.eqb (Customer.id c) k)
                         (Customer_objects (app s))) as [c | ]
        | destruct (customer_null o) eqn:Hn ] ];
    simpl; try rewrite Ho; repeat split; auto;
    first [ left; congruence
          | right; split; [congruence | eexists; reflexivity] ].
Qed.

(** A second read of [obj.customer] gives what the first gave and leaves
    the object as the first left it. *)
Lemma obj_customer_again (s : state) (r : option Customer.t) :
  fst (obj_customer s) = Return r ->
  obj_customer (snd (obj_customer s)) = (Return r, snd (obj_customer s)).
Proof.
  unfold obj_customer.
  destruct (this s) as [o | ] eqn:Ho; simpl; [ | discriminate].
  destruct (customer_cache o) as [[c | ] | ] eqn:Hc; simpl;
    [ | destruct (customer_null o) eqn:Hn
      | destruct (customer_id o) as [k | ] eqn:Hk;
        [ destruct (find (fun c => String.eqb (Customer.id c) k)
                         (Customer_objects (app s))) as [c | ]
        | destruct (customer_null o) eqn:Hn ] ];
    simpl; intro H; try discriminate H; inversion H; subst r;
    simpl; rewrite ?Ho; simpl; rewrite ?Hc; simpl; rewrite ?Hn; reflexivity.
Qed.

(** [customer_email] on an object: the email of what [obj.customer]
    gives, in the state the read leaves. *)
Lemma customer_email_body (s : state) :
  (c <- obj_customer ;;
   match c with
   | Some _ =>
       c' <- obj_customer ;;
       match c' with
       | Some customer => ret (VStr (Customer.email customer))
       | None => lift (Raise AttributeError)
       end
   | None => ret (VStr "")
   end)%py s
  = (email_of (fst (obj_customer s)), snd (obj_customer s)).
Proof.
  unfold bind at 1.
  destruct (obj_customer s) as [[[c | ] | e] s'] eqn:E; simpl; try reflexivity.
  pose proof (obj_customer_again s (Some c)) as H.
  rewrite E in H. simpl in H. unfold bind. rewrite (H eq_refl). reflexivity.
Qed.

Lemma customer_email_call (g : getter) (o : instance) (w : world) :
  reads_customer g = true ->
  call g (Some o) w
  = (email_of (fst (obj_customer {| app := w; this := Some o |})),
     snd (obj_customer {| app := w; this := Some o |})).
Proof.
  intro Hg. destruct g; try discriminate Hg; cbn [call]; unfold_getters;
    unfold method; apply customer_email_body.
Qed.

(** ** Dependence on the state *)

Section Respects.

Variable R : state -> state -> Prop.

Lemma respects_ret {A : Type} (a : A) : respects R (ret a).
Proof. intros s1 s2 H. now split. Qed.

Lemma respects_lift {A : Type} (c : outcome A) : respects R (lift c).
Proof. intros s1 s2 H. now split. Qed.

Lemma respects_bind {A B : Type} (c : M A) (k : A -> M B) :
  respects R c -> (forall a, respects R (k a)) -> respects R (bind c k).
Proof.
  intros Hc Hk s1 s2 H. unfold bind.
  destruct (Hc s1 s2 H) as [Hfst Hsnd].
  destruct (c s1) as [r1 s1'], (c s2) as [r2 s2']; simpl in Hfst, Hsnd.
  subst r2. destruct r1 as [a | e].
  - now apply Hk.
  - now split.
Qed.

Lemma respects_try_except {A : Type} (c h : M A) :
  respects R c -> respects R h -> respects R (try_except c h).
Proof.
  intros Hc Hh s1 s2 H. unfold try_except.
  destruct (Hc s1 s2 H) as [Hfst Hsnd].
  destruct (c s1) as [r1 s1'], (c s2) as [r2 s2']; simpl in Hfst, Hsnd.
  subst r2. destruct r1 as [a | e].
  - now split.
  - now apply Hh.
Qed.

End Respects.

Lemma respects_filter (R : state -> state -> Prop) (ids : list value) :
  (forall s1 s2, R s1 s2 ->
     Product_objects (app s1) = Product_objects (app s2)) ->
  respects R (Product_objects_filter_id_in ids).
Proof.
  intros HR s1 s2 H. unfold Product_objects_filter_id_in.
  match goal with |- context [omap ?f ?l] => destruct (omap f l) end; simpl.
  - rewrite (HR s1 s2 H). now split.
  - now split.
Qed.

Lemma respects_obj_customer : respects same_customers obj_customer.
Proof.
  intros s1 s2 [Ht Hc]. unfold obj_customer, same_customers.
  rewrite Hc. destruct (this s1) as [o | ] eqn:H1; rewrite <- Ht; simpl;
    [ | repeat split; congruence].
  destruct (customer_cache o) as [[c | ] | ];
    [ | destruct (customer_null o)
      | destruct (customer_id o) as [k | ];
        [ destruct (find (fun c => String.eqb (Customer.id c) k)
                         (Customer_objects (app s2))) as [c | ]
        | destruct (customer_null o) ] ];
    simpl; repeat split; congruence.
Qed.

Ltac respects_step :=
  match goal with
  | |- respects _ (bind _ _) => apply respects_bind; [ | intro ]
  | |- respects _ (if ?b then _ else _) => destruct b
  | |- respects _ (match ?x with _ => _ end) => destruct x
  | |- respects _ (ret _) => apply respects_ret
  | |- respects _ (lift _) => apply respects_lift
  | |- respects _ (getitem _ _) => apply respects_lift
  | |- respects _ (getitem_int _ _) => apply respects_lift
  | |- respects _ (get _ _ _) => apply respects_lift
  | |- respects _ (format _) => apply respects_lift
  | |- respects _ (try_except _ _) => apply respects_try_except
  | |- respects _ (Product_objects_filter_id_in _) =>
      apply respects_filter;
      let H := fresh in
      intros ? ? H; first [exact H | exact (proj2 H)]
  | |- respects same_customers obj_customer => apply respects_obj_customer
  end.

(** ** Evaluating the getters on payloads *)

Lemma lookup_nonempty (k : string) (d : list (string * value)) (v : value) :
  Py.lookup k d = Some v -> Py.truthy (VDict d) = true.
Proof. destruct d; [discriminate | reflexivity]. Qed.

Lemma obj_and_data_dict (o : instance) (d : list (string * value)) (k : string)
    (v : value) :
  data o = VDict d -> Py.lookup k d = Some v ->
  obj_and_data (Some o) = Some (VDict d).
Proof.
  intros Hd Hk. unfold obj_and_data. rewrite Hd.
  now rewrite (lookup_nonempty k d v Hk).
Qed.

Lemma obj_and_data_truthy (o : instance) :
  Py.truthy (data o) = true -> obj_and_data (Some o) = Some (data o).
Proof. intro H. unfold obj_and_data. now rewrite H. Qed.

Lemma obj_and_data_nonempty (o : instance) (d : list (string * value)) :
  data o = VDict d -> d <> [] -> obj_and_data (Some o) = Some (VDict d).
Proof.
  intros Hd Hne. unfold obj_and_data. rewrite Hd.
  destruct d; [contradiction | reflexivity].
Qed.

Lemma obj_and_data_Some (obj : option instance) (d : value) :
  obj_and_data obj = Some d ->
  exists o, obj = Some o /\ data o = d /\ Py.truthy d = true.
Proof.
  destruct obj as [o | ]; simpl; [ | discriminate].
  destruct (Py.truthy (data o)) eqn:E; [ | discriminate].
  intro H. inversion H. subst d. now exists o.
Qed.

Lemma obj_and_data_None (obj : option instance) :
  obj_and_data obj = None -> no_payload obj.
Proof.
  destruct obj as [o | ]; simpl; [ | trivial].
  destruct (Py.truthy (data o)); [discriminate | reflexivity].
Qed.

Lemma getitem_int_first (x : value) (l : list value) :
  Py.getitem_int (VList (x :: l)) 0 = Return x.
Proof.
  unfold Py.getitem_int.
  change (0 <? 0) with false. cbv iota.
  change (Datatypes.length (x :: l)) with (S (Datatypes.length l)).
  rewrite Nat2Z.inj_succ.
  replace (0 <? Z.succ (Z.of_nat (Datatypes.length l))) with true
    by (symmetry; apply Z.ltb_lt; lia).
  reflexivity.
Qed.

(** ** The kind of value a computation returns *)

Section ReturnsOnly.

Context {A : Type}.
Variable P : A -> Prop.

Lemma returns_only_ret (a : A) : P a -> returns_only P (ret a).
Proof. intros Ha s a' H. simpl in H. inversion H. now subst. Qed.

Lemma returns_only_bind_with {B : Type} (Q : B -> Prop) (c : M B)
    (k : B -> M A) :
  returns_only Q c -> (forall b, Q b -> returns_only P (k b)) ->
  returns_only P (bind c k).
Proof.
  intros Hc Hk s a. unfold bind.
  specialize (Hc s). destruct (c s) as [[b | e] s']; simpl in *.
  - apply Hk. now apply Hc.
  - discriminate.
Qed.

Lemma returns_only_bind {B : Type} (c : M B) (k : B -> M A) :
  (forall b, returns_only P (k b)) -> returns_only P (bind c k).
Proof.
  intro Hk. apply (returns_only_bind_with (fun _ => True)).
  - intros s b _. exact I.
  - intros b _. apply Hk.
Qed.

Lemma returns_only_try_except (c h : M A) :
  returns_only P c -> returns_only P h -> returns_only P (try_except c h).
Proof.
  intros Hc Hh s a. unfold try_except.
  specialize (Hc s). destruct (c s) as [[b | e] s']; simpl in *.
  - apply Hc.
  - apply Hh.
Qed.

End ReturnsOnly.

Lemma is_str_VStr (s : string) : is_str (VStr s).
Proof. now exists s. Qed.

Lemma try_except_ret_returns {A : Type} (c : M A) (a0 : A) (s : state) :
  exists a, fst (try_except c (ret a0) s) = Return a.
Proof.
  unfold try_except. destruct (c s) as [[a | e] s']; eexists; reflexivity.
Qed.

Lemma try_except_ret_cases {A : Type} (c : M A) (a0 a : A) (s : state) :
  fst (try_except c (ret a0) s) = Return a ->
  (a = a0 /\ exists e, fst (c s) = Raise e) \/ fst (c s) = Return a.
Proof.
  unfold try_except. destruct (c s) as [[a1 | e] s']; simpl; intro H.
  - now right.
  - left. inversion H. split; [reflexivity | now exists e].
Qed.

(** ** The range of [n / 100] *)

Lemma shr_1_m mrs : 0 <= shr_m mrs -> shr_m (shr_1 mrs) = shr_m mrs / 2.
Proof.
  destruct mrs as [m r s]. simpl. intro H.
  destruct m as [ | [p | p | ] | p]; simpl; try reflexivity; try lia.
  - rewrite (Pos2Z.inj_xI p). apply Z.div_unique with (r := 1); lia.
  - rewrite (Pos2Z.inj_xO p). apply Z.div_unique with (r := 0); lia.
Qed.

Lemma iter_shr_1_m p : forall mrs, 0 <= shr_m mrs ->
  shr_m (iter_pos shr_1 p mrs) = shr_m mrs / 2 ^ Zpos p.
Proof.
  induction p as [p IH | p IH | ]; intros mrs H; simpl iter_pos.
  - assert (H1 : 0 <= shr_m (shr_1 mrs)) by (rewrite shr_1_m by assumption; apply Z.div_pos; lia).
    assert (H2 : 0 <= shr_m (iter_pos shr_1 p (shr_1 mrs))) by (rewrite IH by assumption; apply Z.div_pos; lia).
    rewrite IH by assumption. rewrite IH by assumption. rewrite shr_1_m by assumption.
    rewrite !Z.div_div by lia.
    f_equal. rewrite (Pos2Z.inj_xI p). rewrite Z.pow_add_r by lia.
    replace (2 * Z.pos p) with (Z.pos p + Z.pos p) by lia.
    rewrite Z.pow_add_r by lia. lia.
  - assert (H2 : 0 <= shr_m (iter_pos shr_1 p mrs)) by (rewrite IH by assumption; apply Z.div_pos; lia).
    rewrite IH by assumption. rewrite IH by assumption.
    rewrite !Z.div_div by lia.
    f_equal. rewrite (Pos2Z.inj_xO p).
    replace (2 * Z.pos p) with (Z.pos p + Z.pos p) by lia.
    rewrite Z.pow_add_r by lia. lia.
  - rewrite shr_1_m by assumption. reflexivity.
Qed.

Lemma Zdigits2_log2 m : 0 < m -> Zdigits2 m = Z.log2 m + 1.
Proof.
  destruct m as [ | p | p]; try lia. intros _. simpl Zdigits2.
  induction p as [p IH | p IH | ]; simpl digits2_pos.
  - rewrite Pos2Z.inj_succ, IH. 
    change (Z.pos p~1) with (Z.succ_double (Z.pos p)).
    rewrite Z.succ_double_spec, Z.log2_succ_double by lia. lia.
  - rewrite Pos2Z.inj_succ, IH. 
    change (Z.pos p~0) with (Z.double (Z.pos p)).
    rewrite Z.double_spec, Z.log2_double by lia. lia.
  - reflexivity.
Qed.

Lemma Zdigits2_le m k : 0 <= m -> 0 <= k -> m < 2 ^ k -> Zdigits2 m <= k.
Proof.
  intros Hm Hk H. destruct (Z.eq_dec m 0) as [-> | Hne]; [simpl; lia | ].
  rewrite Zdigits2_log2 by lia.
  assert (Z.log2 m < k) by (apply Z.log2_lt_pow2; lia). lia.
Qed.

Lemma round_nearest_even_le m l : round_nearest_even m l <= m + 1.
Proof. destruct l as [ | [ | | ]]; simpl; try lia. destruct (Z.even m); lia. Qed.

Lemma round_nearest_even_ge m l : m <= round_nearest_even m l.
Proof. destruct l as [ | [ | | ]]; simpl; try lia. destruct (Z.even m); lia. Qed.

Lemma shr_m_of_loc m l : shr_m (shr_record_of_loc m l) = m.
Proof. destruct l as [ | [ | | ]]; reflexivity. Qed.

(** What [shr_fexp] leaves: the exponent it settles on and the mantissa
    shifted down to it. *)
Lemma shr_fexp_spec m e l : 0 <= m ->
  let e1 := Z.max e (fexp Py.prec Py.emax (Zdigits2 m + e)) in
  snd (shr_fexp Py.prec Py.emax m e l) = e1 /\
  shr_m (fst (shr_fexp Py.prec Py.emax m e l)) = m / 2 ^ (e1 - e).
Proof.
  intros Hm e1. unfold shr_fexp, shr.
  destruct (fexp Py.prec Py.emax (Zdigits2 m + e) - e) as [ | p | p] eqn:E; simpl.
  - replace (e1 - e) with 0 by lia. rewrite shr_m_of_loc, Z.div_1_r. split; [lia | reflexivity].
  - replace (e1 - e) with (Zpos p) by lia. split; [lia | ].
    rewrite iter_shr_1_m by (rewrite shr_m_of_loc; assumption).
    now rewrite shr_m_of_loc.
  - replace (e1 - e) with 0 by lia. rewrite shr_m_of_loc, Z.div_1_r. split; [lia | reflexivity].
Qed.

Lemma div_pow2_lt m a k : 0 <= m -> 0 <= k -> k <= a -> m < 2 ^ a -> m / 2 ^ k < 2 ^ (a - k).
Proof.
  intros Hm Hk Hka H.
  apply Z.div_lt_upper_bound; [apply Z.pow_pos_nonneg; lia | ].
  rewrite <- Z.pow_add_r by lia. now replace (k + (a - k)) with a by lia.
Qed.

Lemma binary_round_aux_in_range (s : bool) (m e : Z) (l : location) (B : Z) :
  0 <= m -> e <= 0 -> 0 <= B <= 1023 -> m < 2 ^ (B - e) ->
  finite_or_zero (binary_round_aux Py.prec Py.emax s m e l).
Proof.
  intros Hm He HB Hlt. unfold binary_round_aux.
  destruct (shr_fexp_spec m e l Hm) as [He1 Hm1].
  destruct (shr_fexp Py.prec Py.emax m e l) as [mrs1 e1]. simpl in He1, Hm1.
  rewrite <- He1 in Hm1.
  set (m1 := round_nearest_even (shr_m mrs1) (loc_of_shr_record mrs1)).
  assert (Hd : Zdigits2 m + e <= B).
  { assert (Zdigits2 m <= B - e) by (apply Zdigits2_le; lia). lia. }
  assert (Hfexp : forall x, fexp Py.prec Py.emax x = Z.max (x - 53) (-1074)) by reflexivity.
  assert (He1B : e <= e1 <= 970) by (rewrite Hfexp in He1; lia).
  assert (He1B' : e1 <= B) by (rewrite Hfexp in He1; lia).
  assert (Hs1 : 0 <= shr_m mrs1 < 2 ^ (B - e1)).
  { rewrite Hm1. split.
    - apply Z.div_pos; [lia | apply Z.pow_pos_nonneg; lia].
    - replace (B - e1) with ((B - e) - (e1 - e)) by lia.
      apply div_pow2_lt; lia. }
  assert (Hm1B : 0 <= m1 < 2 ^ (B + 1 - e1)).
  { unfold m1. split.
    - pose proof (round_nearest_even_ge (shr_m mrs1) (loc_of_shr_record mrs1)). lia.
    - pose proof (round_nearest_even_le (shr_m mrs1) (loc_of_shr_record mrs1)).
      replace (B + 1 - e1) with (Z.succ (B - e1)) by lia.
      rewrite Z.pow_succ_r by lia. lia. }
  destruct (shr_fexp_spec m1 e1 loc_Exact (proj1 Hm1B)) as [He2 Hm2].
  destruct (shr_fexp Py.prec Py.emax m1 e1 loc_Exact) as [mrs2 e2]. simpl in He2, Hm2.
  rewrite <- He2 in Hm2.
  assert (Hd1 : Zdigits2 m1 + e1 <= B + 1).
  { assert (Zdigits2 m1 <= B + 1 - e1) by (apply Zdigits2_le; lia). lia. }
  assert (He2B : e2 <= 971) by (rewrite Hfexp in He2; lia).
  destruct (shr_m mrs2); [exact I | | exact I].
  assert (Hle : (e2 <=? Py.emax - Py.prec) = true)
    by (apply Z.leb_le; unfold Py.emax, Py.prec; lia).
  rewrite Hle. exact I.
Qed.

Lemma truediv_in_range (n : Z) :
  Z.abs n < 2 ^ 1000 -> exists q, Py.truediv n 100 = Return q.
Proof.
  intro Hn. unfold Py.truediv.
  change (100 =? 0) with false. cbv iota.
  destruct (n =? 0) eqn:E0; [eexists; reflexivity | ].
  apply Z.eqb_neq in E0.
  destruct (SFdiv_core_binary Py.prec Py.emax (Z.abs n) 0 (Z.abs 100) 0)
    as [[q e] loc] eqn:E.
  assert (H : finite_or_zero
                (binary_round_aux Py.prec Py.emax (xorb (n <? 0) (100 <? 0)) q e loc)).
  { unfold SFdiv_core_binary in E.
    set (e' := Z.min (fexp Py.prec Py.emax
                        (Zdigits2 (Z.abs n) + 0 - (Zdigits2 (Z.abs 100) + 0)))
                     (0 - 0)) in E.
    assert (He' : e' <= 0) by (unfold e'; lia).
    set (m' := match 0 - 0 - e' with
               | 0 => Z.abs n
               | Z.pos _ => Z.shiftl (Z.abs n) (0 - 0 - e')
               | Z.neg _ => 0
               end) in E.
    assert (Hm' : m' = Z.abs n * 2 ^ (- e')).
    { unfold m'. destruct (0 - 0 - e') eqn:Es; try lia.
      - replace (- e') with 0 by lia. lia.
      - rewrite Z.shiftl_mul_pow2 by lia. f_equal. f_equal. lia. }
    pose proof (Z_div_mod m' (Z.abs 100) ltac:(reflexivity)) as Hdiv.
    destruct (Z.div_eucl m' (Z.abs 100)) as [q0 r0].
    inversion E. subst q0 e. clear E.
    change (Z.abs 100) with 100 in Hdiv.
    assert (Hpow : 0 < 2 ^ (- e')) by (apply Z.pow_pos_nonneg; lia).
    apply (binary_round_aux_in_range _ q e' _ 1000); try lia.
    replace (1000 - e') with (1000 + - e') by lia.
    rewrite Z.pow_add_r by lia. nia. }
  destruct (binary_round_aux Py.prec Py.emax (xorb (n <? 0) (100 <? 0)) q e loc);
    try contradiction; eexists; reflexivity.
Qed.

(** * The claims *)

(** C1: [billing_cycle], [trial_period], [unit_price] and [products]
    let the exception of a missing nested key or an unreadable amount
    out, where [payment_amount] on a payload of the same kind returns the
    empty string. *)
Theorem nested_key_errors_propagate (w : world) :
  fst (PriceAdmin.billing_cycle
         (record_of (VDict [("billing_cycle", VDict [("frequency", VInt 1)])])) w)
  = Raise KeyError
  /\ fst (PriceAdmin.trial_period
            (record_of (VDict [("trial_period", VDict [("interval", VStr "day")])])) w)
     = Raise KeyError
  /\ fst (PriceAdmin.unit_price
            (record_of (VDict [("unit_price",
                                VDict [("amount", VStr "19.99");
                                       ("currency_code", VStr "USD")])])) w)
     = Raise ValueError
  /\ fst (TransactionAdmin.products
            (record_of (VDict [("items", VList [VDict [("quantity", VInt 1)]])])) w)
     = Raise KeyError
  /\ fst (TransactionAdmin.payment_amount
            (record_of (VDict [("details", VDict [("totals", VDict [])])])) w)
     = Return (VStr "").
Proof. repeat split. Qed.

(** C2: the hook of the class registered for Address returns [True]
    exactly when ADMIN_READONLY is [True]; the hook of every other
    registered class returns [True] exactly when ADMIN_READONLY is
    [False]; neither the request nor the object matters. *)
Theorem has_change_permission_polarity
    {Request : Type} (m : model) (request : Request)
    (obj : option instance) (w : world) :
  fst (registered_has_change_permission m request obj w) = Return true
  <-> ADMIN_READONLY w = match m with Address => true | _ => false end.
Proof.
  destruct m; simpl; destruct (ADMIN_READONLY w); simpl;
    split; intro H; try reflexivity; try discriminate; inversion H.
Qed.

(** C3: on the payload [{"details":{"totals":{"total":"1999"}}}],
    [payment_amount] returns the float 19.99, which Python prints as
    19.99. *)
Theorem payment_amount_sample (o : instance) (w : world) :
  data o = VDict [("details", VDict [("totals", VDict [("total", VStr "1999")])])] ->
  fst (TransactionAdmin.payment_amount (Some o) w)
  = Return (VFloat (Prim2SF 19.99%float))
  /\ Py.float_repr (Prim2SF 19.99%float) = "19.99".
Proof.
  intro Hd. unfold TransactionAdmin.payment_amount, method, obj_and_data.
  rewrite Hd. split; vm_compute; reflexivity.
Qed.

Lemma payment_amount_sample_witness :
  fst (TransactionAdmin.payment_amount
         (record_of (VDict [("details",
                             VDict [("totals", VDict [("total", VStr "1999")])])]))
         basic_world)
  = Return (VFloat (Prim2SF 19.99%float))
  /\ Py.float_repr (Prim2SF 19.99%float) = "19.99".
Proof.
  apply (payment_amount_sample
           (plain (VDict [("details",
                           VDict [("totals", VDict [("total", VStr "1999")])])]))
           basic_world).
  reflexivity.
Defined.

(** C4: called with [obj=None] or with a record whose [data] is [None],
    [PriceAdmin.description], [PriceAdmin.name], [PriceAdmin.status] and
    [CustomerAdmin.status] return [None], where [AddressAdmin.status] and
    [TransactionAdmin.status] return the empty string. *)
Theorem missing_return_gives_None (w : world) :
  fst (PriceAdmin.description None w) = Return VNone
  /\ fst (PriceAdmin.name None w) = Return VNone
  /\ fst (PriceAdmin.status None w) = Return VNone
  /\ fst (CustomerAdmin.status None w) = Return VNone
  /\ fst (PriceAdmin.description (record_of VNone) w) = Return VNone
  /\ fst (CustomerAdmin.status (record_of VNone) w) = Return VNone
  /\ fst (AddressAdmin.status None w) = Return (VStr "")
  /\ fst (TransactionAdmin.status (record_of VNone) w) = Return (VStr "").
Proof. repeat split. Qed.

(** C5 as stated fails: on the sample payload of C3 [payment_amount]
    returns a float. *)
Lemma payment_amount_is_not_a_string :
  ~ (forall (g : getter) (obj : option instance) (w : world) (v : value),
        fst (call g obj w) = Return v -> is_str v).
Proof.
  intro H.
  destruct (H Transaction_payment_amount
              (record_of (VDict [("details",
                 VDict [("totals", VDict [("total", VStr "1999")])])]))
              empty_world _ eq_refl) as [s Hs].
  vm_compute in Hs. discriminate Hs.
Qed.

Lemma plain_get_kind (g : getter) (k : string) (obj : option instance)
    (default v : value) (s : state) :
  pass_through g = true -> g <> Transaction_date_paid ->
  payload_key g = Some k ->
  (default = VStr "" \/ falls_off_end g = true) ->
  fst (match obj_and_data obj with
       | Some d => get d k (VStr "")
       | None => ret default
       end s) = Return v ->
  stored g obj v
  \/ ((forall x, ~ stored g obj x)
      /\ (v = VStr "" \/ (falls_off_end g = true /\ no_payload obj))).
Proof.
  intros Hp Hg Hk Hdef.
  assert (Hshape : forall x, stored g obj x ->
            exists o d, obj = Some o /\ Py.truthy (data o) = true
                        /\ data o = VDict d /\ Py.lookup k d = Some x).
  { intros x [o [Ho [Ht Hx]]].
    destruct g; try discriminate Hp; try congruence;
      destruct Hx as [k' [d [Hk' [Hd Hl]]]];
      exists o, d; repeat split; congruence. }
  destruct (obj_and_data obj) as [d | ] eqn:E.
  - destruct (obj_and_data_Some _ _ E) as [o [-> [<- Ht]]].
    unfold get, lift, Py.get. simpl.
    destruct (data o) as [ | | | | | | items] eqn:Hd; try discriminate.
    destruct (Py.lookup k items) as [x | ] eqn:Hl; intro H; inversion H.
    + subst x. left. exists o.
      split; [reflexivity | split; [rewrite Hd; exact Ht | ]].
      destruct g; try discriminate Hp; try congruence;
        exists k, items; repeat split; assumption.
    + right. split; [ | now left].
      intros x Hx. destruct (Hshape x Hx) as [o' [d' [Ho' [_ [Hd' Hl']]]]].
      inversion Ho'. subst o'. congruence.
  - intro H. right. split.
    + intros x Hx. destruct (Hshape x Hx) as [o [d [-> [Ht _]]]].
      simpl in E. rewrite Ht in E. discriminate E.
    + destruct Hdef as [-> | Hf].
      * left. now inversion H.
      * right. split; [exact Hf | now apply obj_and_data_None].
Qed.

Lemma date_paid_kind (obj : option instance) (w : world) (v : value) :
  fst (TransactionAdmin.date_paid obj w) = Return v ->
  stored Transaction_date_paid obj v
  \/ ((forall x, ~ stored Transaction_date_paid obj x) /\ v = VStr "").
Proof.
  unfold TransactionAdmin.date_paid, method.
  destruct (obj_and_data obj) as [d | ] eqn:E.
  - destruct (obj_and_data_Some _ _ E) as [o [-> [<- Ht]]].
    cbv beta iota delta [bind ret lift getitem getitem_int try_except fst snd].
    destruct (Py.getitem (data o) "payments") as [payments | e1] eqn:E1.
    + destruct (Py.getitem_int payments 0) as [first | e2] eqn:E2.
      * destruct (Py.getitem first "captured_at") as [x | e3] eqn:E3;
          intro H; inversion H.
        -- subst x. left. exists o. repeat split; [exact Ht | ].
           exists payments, first. now repeat split.
        -- right. split; [ | reflexivity].
           intros x [o' [Ho' [_ [p [f [Hq1 [Hq2 Hq3]]]]]]].
           inversion Ho'. subst o'. congruence.
      * intro H. inversion H. right. split; [ | reflexivity].
        intros x [o' [Ho' [_ [p [f [Hq1 [Hq2 Hq3]]]]]]].
        inversion Ho'. subst o'. congruence.
    + intro H. inversion H. right. split; [ | reflexivity].
      intros x [o' [Ho' [_ [p [f [Hq1 [Hq2 Hq3]]]]]]].
      inversion Ho'. subst o'. congruence.
  - intro H. inversion H. right. split; [ | reflexivity].
    intros x [o [-> [Ht _]]]. simpl in E. rewrite Ht in E. discriminate E.
Qed.

Lemma payment_amount_kind (obj : option instance) (w : world) (v : value) :
  fst (TransactionAdmin.payment_amount obj w) = Return v ->
  (exists q, reads_total obj q /\ v = VFloat q)
  \/ ((forall q, ~ reads_total obj q) /\ v = VStr "").
Proof.
  unfold TransactionAdmin.payment_amount, method.
  destruct (obj_and_data obj) as [d | ] eqn:E.
  - destruct (obj_and_data_Some _ _ E) as [o [-> [<- Ht]]].
    cbv beta iota delta [bind ret lift getitem try_except fst snd].
    destruct (Py.getitem (data o) "details") as [details | e1] eqn:E1;
      [destruct (Py.getitem details "totals") as [totals | e2] eqn:E2;
       [destruct (Py.getitem totals "total") as [total | e3] eqn:E3;
        [destruct (Py.int total) as [n | e4] eqn:E4;
         [destruct (Py.truediv n 100) as [q | e5] eqn:E5 | ] | ] | ] | ];
      intro H; inversion H;
      try (right; split; [ | reflexivity];
           intros q' [o' [det [tot [t [n' [Ho' [_ [Hq1 [Hq2 [Hq3 [Hq4 Hq5]]]]]]]]]]];
           inversion Ho'; subst o'; congruence).
    left. exists q. split; [ | reflexivity].
    exists o, details, totals, total, n. now repeat split.
  - intro H. inversion H. right. split; [ | reflexivity].
    intros q [o [det [tot [t [n [-> [Ht _]]]]]]].
    simpl in E. rewrite Ht in E. discriminate E.
Qed.

Ltac returns_str :=
  repeat match goal with
  | |- returns_only is_str (bind _ _) => apply returns_only_bind; intro
  | |- returns_only is_str (if ?b then _ else _) => destruct b
  | |- returns_only is_str (match ?x with _ => _ end) => destruct x
  | |- returns_only is_str (try_except _ _) => apply returns_only_try_except
  | |- returns_only is_str (ret (VStr _)) =>
      apply returns_only_ret; apply is_str_VStr
  | |- returns_only is_str (ret (spaced _ _)) =>
      apply returns_only_ret; apply is_str_VStr
  | |- returns_only is_str (lift (Raise _)) =>
      let s := fresh in let a := fresh in let H := fresh in
      intros s a H; discriminate H
  end.

Lemma formatted_getters_return_str (g : getter) (obj : option instance)
    (w : world) (v : value) :
  pass_through g = false -> g <> Transaction_payment_amount ->
  fst (call g obj w) = Return v -> is_str v.
Proof.
  intros Hp Hg.
  destruct g; try discriminate Hp; try congruence; cbn [call];
    unfold_getters; unfold method;
    match goal with
    | |- fst (?b ?s) = Return v -> is_str v =>
        revert v; generalize s; change (returns_only is_str b)
    end;
    returns_str.
Qed.

(** C5, amended: a getter that returns, returns a string; except
    [payment_amount], which returns the float [int(total) / 100] when it
    can read and convert the total, and the empty string when it cannot;
    and except the pass-through getters ([postal_code], [status],
    [description], [name], [date_paid]), which return the value stored
    under their key (for [date_paid], under [captured_at] of the first
    payment) as it is, and the empty string when nothing is stored there.
    Nothing is said of the getters without a final [return] when [obj] or
    [obj.data] is falsy. *)
Theorem getter_result_kind (g : getter) (obj : option instance) (w : world)
    (v : value) :
  fst (call g obj w) = Return v -> result_kind g obj v.
Proof.
  intro H.
  destruct (getter_eq_dec g Transaction_payment_amount) as [-> | Hpa].
  { exact (payment_amount_kind obj w v H). }
  destruct (getter_eq_dec g Transaction_date_paid) as [-> | Hdp].
  { destruct (date_paid_kind obj w v H) as [Hs | [Hn ->]];
      [now left | right; split; [exact Hn | now left]]. }
  destruct (pass_through g) eqn:Hp.
  - assert (Hk : exists k default,
               payload_key g = Some k
               /\ call g obj w
                  = match obj_and_data obj with
                    | Some d => get d k (VStr "")
                    | None => ret default
                    end {| app := w; this := obj |}
               /\ (default = VStr "" \/ falls_off_end g = true)).
    { destruct g; try discriminate Hp; try congruence;
        do 2 eexists;
        (split; [reflexivity | split; [reflexivity | ]]);
        first [now left | now right]. }
    destruct Hk as [k [default [Hk [Hcall Hdef]]]].
    rewrite Hcall in H.
    pose proof (plain_get_kind g k obj default v _ Hp Hdp Hk Hdef H) as Hres.
    destruct g; try discriminate Hp; try congruence; exact Hres.
  - pose proof (formatted_getters_return_str g obj w v Hp Hpa H) as Hs.
    destruct g; try discriminate Hp; try congruence; exact Hs.
Qed.

Lemma getter_result_kind_witness :
  result_kind Transaction_status
    (record_of (VDict [("status", VInt 3)])) (VInt 3).
Proof.
  apply (getter_result_kind Transaction_status
           (record_of (VDict [("status", VInt 3)])) empty_world (VInt 3)).
  reflexivity.
Defined.

(** C6 as stated fails: [products] lists the names it finds in the
    Product table, and [customer_email] reads the customer of the record
    from the Customer table. *)
Lemma results_depend_on_tables :
  ~ (forall (g : getter) (obj : option instance) (w1 w2 : world),
        fst (call g obj w1) = fst (call g obj w2))
  /\ fst (call Transaction_products
            (record_of (VDict [("items", VList [item_for "pro_01"])]))
            basic_world)
     <> fst (call Transaction_products
               (record_of (VDict [("items", VList [item_for "pro_01"])]))
               empty_world)
  /\ fst (call Transaction_customer_email
            (Some (of_customer "ctm_01" (VDict []))) basic_world)
     <> fst (call Transaction_customer_email
               (Some (of_customer "ctm_01" (VDict []))) empty_world).
Proof.
  split; [ | split].
  - intro H.
    specialize (H Transaction_products
                  (record_of (VDict [("items", VList [item_for "pro_01"])]))
                  basic_world empty_world).
    vm_compute in H. discriminate H.
  - vm_compute. discriminate.
  - vm_compute. discriminate.
Qed.

(** C6, amended: the result of a getter is a function of the object
    alone (its payload, its customer key and what its foreign-key cache
    holds), except for [products], whose result is a function of the
    object and of the rows of the Product table, and for
    [customer_email], whose result is a function of the object and of
    the rows of the Customer table. *)
Theorem getter_result_depends_on (g : getter) (obj : option instance)
    (w1 w2 : world) :
  (g = Transaction_products -> Product_objects w1 = Product_objects w2) ->
  (reads_customer g = true -> Customer_objects w1 = Customer_objects w2) ->
  fst (call g obj w1) = fst (call g obj w2).
Proof.
  intros Hp Hc.
  destruct g; cbn [call]; unfold_getters; unfold method;
    match goal with
    | |- fst (?b ?s1) = fst (?b ?s2) =>
        first
          [ assert (Hr : respects same_object b) by (repeat respects_step);
            exact (proj1 (Hr s1 s2 eq_refl))
          | assert (Hr : respects same_products b) by (repeat respects_step);
            exact (proj1 (Hr s1 s2 (conj eq_refl (Hp eq_refl))))
          | assert (Hr : respects same_customers b) by (repeat respects_step);
            exact (proj1 (Hr s1 s2 (conj eq_refl (Hc eq_refl)))) ]
    end.
Qed.

Lemma getter_result_depends_on_witness :
  fst (call Transaction_products
         (record_of (VDict [("items", VList [item_for "pro_01"])]))
         basic_world)
  = fst (call Transaction_products
           (record_of (VDict [("items", VList [item_for "pro_01"])]))
           {| INSTALLED_APPS := ["unfold"]; ADMIN_READONLY := false;
              Product_objects := Product_objects basic_world;
              Customer_objects := [] |})
  /\ fst (call Address_customer_email
            (Some (of_customer "ctm_01" VNone)) basic_world)
     = fst (call Address_customer_email
              (Some (of_customer "ctm_01" VNone))
              {| INSTALLED_APPS := []; ADMIN_READONLY := false;
                 Product_objects := [];
                 Customer_objects := Customer_objects basic_world |})
  /\ fst (call Price_unit_price None basic_world)
     = fst (call Price_unit_price None empty_world).
Proof.
  split; [ | split].
  - apply getter_result_depends_on.
    + intros _. reflexivity.
    + intro H. discriminate H.
  - apply getter_result_depends_on.
    + intro H. discriminate H.
    + intros _. reflexivity.
  - apply getter_result_depends_on; intro H; discriminate H.
Defined.

(** C7 as stated fails. A decimal string of 401 digits is integer-valued,
    and its hundredth is beyond the largest float: [unit_price] raises
    OverflowError. A frequency that is an integer of 4301 digits is more
    than [str] writes: [billing_cycle] raises ValueError. *)
Lemma price_strings_out_of_range :
  (Py.int_of_str huge_amount = Return (10 ^ 400)
   /\ fst (PriceAdmin.unit_price
             (record_of (VDict [("unit_price",
                                 VDict [("amount", VStr huge_amount);
                                        ("currency_code", VStr "USD")])]))
             empty_world)
      = Raise OverflowError)
  /\ fst (PriceAdmin.billing_cycle
            (record_of (VDict [("billing_cycle",
                                VDict [("frequency", VInt huge_int);
                                       ("interval", VStr "month")])]))
            empty_world)
     = Raise ValueError.
Proof. split; [split | ]; vm_compute; reflexivity. Qed.

(** C7, amended: on a payload with a unit_price object whose amount is a
    decimal string for an integer [n] whose hundredth is a float
    ([n / 100] returns) and whose currency code [str] can write,
    [unit_price] returns the quotient as Python prints the float, a space
    and the currency code; on a payload with a billing_cycle object whose
    frequency and interval [str] can write, [billing_cycle] returns the
    two separated by a space. *)
Theorem price_strings (o : instance) (d : list (string * value)) (w : world) :
  data o = VDict d ->
  (forall (up : list (string * value)) (a : string) (c : value) (n : Z)
          (q : spec_float) (cs : string),
      Py.lookup "unit_price" d = Some (VDict up) ->
      Py.lookup "amount" up = Some (VStr a) ->
      Py.lookup "currency_code" up = Some c ->
      Py.int_of_str a = Return n ->
      Py.truediv n 100 = Return q ->
      Py.str c = Return cs ->
      fst (PriceAdmin.unit_price (Some o) w)
      = Return (VStr (append (Py.float_repr q) (append " " cs))))
  /\ (forall (bc : list (string * value)) (frequency interval : value)
             (f i : string),
      Py.lookup "billing_cycle" d = Some (VDict bc) ->
      Py.lookup "frequency" bc = Some frequency ->
      Py.lookup "interval" bc = Some interval ->
      Py.str frequency = Return f ->
      Py.str interval = Return i ->
      fst (PriceAdmin.billing_cycle (Some o) w)
      = Return (VStr (append f (append " " i)))).
Proof.
  intro Hd. split.
  - intros up a c n q cs Hup Ha Hc Hn Hq Hcs.
    unfold PriceAdmin.unit_price.
    rewrite (obj_and_data_dict o d _ _ Hd Hup).
    run_getter. rewrite Hup.
    rewrite (lookup_nonempty _ _ _ Ha).
    rewrite Ha. cbv beta iota delta [Py.int]. rewrite Hn, Hq.
    assert (Hfq : Py.str (VFloat q) = Return (Py.float_repr q))
      by reflexivity.
    rewrite Hfq, Hc, Hcs.
    reflexivity.
  - intros bc frequency interval f i Hbc Hf Hi Hfs His.
    unfold PriceAdmin.billing_cycle.
    rewrite (obj_and_data_dict o d _ _ Hd Hbc).
    run_getter. rewrite Hbc.
    rewrite (lookup_nonempty _ _ _ Hf).
    rewrite Hf, Hfs, Hi, His.
    reflexivity.
Qed.

Lemma price_strings_witness :
  fst (PriceAdmin.unit_price
         (record_of (VDict [("unit_price",
                             VDict [("amount", VStr "1999");
                                    ("currency_code", VStr "USD")])]))
         empty_world)
  = Return (VStr "19.99 USD")
  /\ fst (PriceAdmin.billing_cycle
            (record_of (VDict [("billing_cycle",
                                VDict [("frequency", VInt 1);
                                       ("interval", VStr "month")])]))
            empty_world)
     = Return (VStr "1 month").
Proof.
  split.
  - assert (E : "19.99 USD"%string
                = append (Py.float_repr
                            (S754_finite false 5626684784446013 (-48)))
                         (append " " "USD"))
      by (vm_compute; reflexivity).
    rewrite E.
    apply (proj1 (price_strings
                    (plain (VDict [("unit_price",
                                    VDict [("amount", VStr "1999");
                                           ("currency_code", VStr "USD")])]))
                    _ empty_world eq_refl)
             [("amount", VStr "1999"); ("currency_code", VStr "USD")]
             "1999" (VStr "USD") 1999
             (S754_finite false 5626684784446013 (-48)) "USD");
      reflexivity.
  - apply (proj2 (price_strings
                    (plain (VDict [("billing_cycle",
                                    VDict [("frequency", VInt 1);
                                           ("interval", VStr "month")])]))
                    _ empty_world eq_refl)
             [("frequency", VInt 1); ("interval", VStr "month")]
             (VInt 1) (VStr "month") "1" "month");
      reflexivity.
Defined.

(** C8: the three base classes come from the unfold package when
    "unfold" is an element of INSTALLED_APPS and from django.contrib.admin
    otherwise; the rest of the state has no part in it. *)
Theorem admin_bases_by_installed_apps (w : world) :
  fst (import_admin_bases w) =
  Return (let pkg := if in_dec string_dec "unfold" (INSTALLED_APPS w)
                     then unfold_admin else django_contrib_admin in
          {| ModelAdmin := pkg; StackedInline := pkg; TabularInline := pkg |}).
Proof.
  unfold import_admin_bases.
  destruct (existsb (String.eqb "unfold") (INSTALLED_APPS w)) eqn:E;
    destruct (in_dec string_dec "unfold" (INSTALLED_APPS w)) as [Hin | Hout];
    try reflexivity.
  - apply existsb_eqb_In in E. contradiction.
  - apply existsb_eqb_In in Hin. congruence.
Qed.

(** C9 as stated fails: the first read of [obj.customer] stores the
    customer it finds in the foreign-key cache of the object passed in. *)
Lemma customer_email_fills_cache :
  ~ (forall (g : getter) (obj : option instance) (w : world),
        snd (call g obj w) = {| app := w; this := obj |}).
Proof.
  intro H.
  specialize (H Transaction_customer_email
                (Some (of_customer "ctm_01" (VDict []))) basic_world).
  vm_compute in H. discriminate H.
Qed.

(** C9, amended: every getter other than [customer_email], and every
    permission hook, leaves the settings, the tables and the object
    passed in as it found them, whether it returns or raises;
    [customer_email] leaves the settings and the tables as it found
    them, and of the object changes at most the foreign-key cache, from
    empty to filled. *)
Theorem getters_and_hooks_read_only :
  (forall (g : getter) (obj : option instance) (w : world),
      reads_customer g = false ->
      snd (call g obj w) = {| app := w; this := obj |})
  /\ (forall (Request : Type) (m : model) (request : Request)
        (obj : option instance) (w : world),
      snd (registered_has_change_permission m request obj w)
      = {| app := w; this := obj |})
  /\ (forall (g : getter) (obj : option instance) (w : world),
      app (snd (call g obj w)) = w
      /\ object_kept_but_cache obj (this (snd (call g obj w)))).
Proof.
  assert (Hread : forall (g : getter) (obj : option instance) (w : world),
             reads_customer g = false ->
             snd (call g obj w) = {| app := w; this := obj |}).
  { intros g obj w Hg.
    destruct g; try discriminate Hg; cbn [call]; unfold_getters;
      unfold method;
      match goal with
      | |- snd (?b ?s) = ?s =>
          generalize s; change (readonly b); repeat readonly_step
      end. }
  split; [exact Hread | split].
  - intros Request m request obj w.
    destruct m; cbn [registered_has_change_permission];
      unfold AddressAdmin.has_change_permission,
        BusinessAdmin.has_change_permission,
        ProductAdmin.has_change_permission,
        PriceAdmin.has_change_permission,
        SubscriptionAdmin.has_change_permission,
        CustomerAdmin.has_change_permission,
        TransactionAdmin.has_change_permission, method;
      match goal with
      | |- snd (?b ?s) = ?s =>
          generalize s; change (readonly b); repeat readonly_step
      end.
  - intros g obj w. destruct (reads_customer g) eqn:Hg.
    + destruct obj as [o | ].
      * rewrite (customer_email_call g o w Hg). simpl.
        exact (obj_customer_state {| app := w; this := Some o |}).
      * destruct g; try discriminate Hg; now split.
    + rewrite (Hread g obj w Hg). simpl. split; [reflexivity | ].
      destruct obj as [o | ]; simpl; [ | exact I].
      unfold cache_filled. repeat split. now left.
Qed.

Lemma getters_and_hooks_read_only_witness :
  snd (call Transaction_products
         (Some (transaction_of [item_for "pro_01"])) two_products)
  = {| app := two_products;
       this := Some (transaction_of [item_for "pro_01"]) |}.
Proof.
  apply (proj1 getters_and_hooks_read_only
           Transaction_products
           (Some (transaction_of [item_for "pro_01"])) two_products).
  reflexivity.
Defined.





(** * Further properties of the getters *)

(** ** Guards and payloads *)

(** X1: the getters whose lookups sit in [try ... except Exception]
    ([payment_amount], [payment_method], [date_paid]) never raise,
    whatever the object and its payload. *)
Theorem guarded_getters_never_raise (g : getter) (obj : option instance)
    (w : world) :
  catches_exceptions g = true ->
  exists v, fst (call g obj w) = Return v.
Proof.
  intro H; destruct g; try discriminate H; cbn [call]; unfold_getters;
    unfold method;
    (destruct (obj_and_data obj);
     [apply try_except_ret_returns | eexists; reflexivity]).
Qed.

Lemma guarded_getters_never_raise_witness :
  exists v, fst (call Transaction_date_paid (record_of (VList [VInt 1])) empty_world)
            = Return v.
Proof.
  apply (guarded_getters_never_raise Transaction_date_paid).
  reflexivity.
Defined.

(** X2: every other getter raises [AttributeError] on a payload that is
    truthy and not a dict (a list, a string, a number): it calls
    [obj.data.get] outside any [try]. *)
Theorem non_dict_payload_raises (g : getter) (o : instance) (w : world) :
  calls_get_unguarded g = true ->
  Py.truthy (data o) = true ->
  is_dict (data o) = false ->
  fst (call g (Some o) w) = Raise AttributeError.
Proof.
  intros Hg Ht Hd.
  destruct g; try discriminate Hg; cbn [call]; unfold_getters;
    unfold method; rewrite (obj_and_data_truthy o Ht);
    destruct (data o); try discriminate Hd; reflexivity.
Qed.

Lemma non_dict_payload_raises_witness :
  fst (call Price_name (record_of (VList [VStr "Starter"])) empty_world)
  = Raise AttributeError.
Proof.
  apply (non_dict_payload_raises Price_name
           (plain (VList [VStr "Starter"])));
    reflexivity.
Defined.

(** X3: on a non-empty dict payload, a getter that is one
    [obj.data.get(key, "")] returns the value stored under its key as it
    is, the empty string when the key is missing, and does not raise. *)
Theorem plain_get_on_dict (g : getter) (k : string) (o : instance)
    (d : list (string * value)) (w : world) :
  plain_get g = true ->
  payload_key g = Some k ->
  data o = VDict d ->
  d <> [] ->
  fst (call g (Some o) w)
  = Return (match Py.lookup k d with
            | Some v => v
            | None => VStr ""
            end).
Proof.
  intros Hg Hk Hd Hne.
  destruct g; try discriminate Hg; cbn [call]; unfold_getters;
    unfold method; rewrite (obj_and_data_nonempty o d Hd Hne);
    injection Hk as <-;
    unfold get, lift, Py.get; simpl;
    destruct (Py.lookup _ d); reflexivity.
Qed.

Lemma plain_get_on_dict_witness :
  fst (call Customer_status (record_of (VDict [("name", VStr "Ada")])) empty_world)
  = Return (VStr "").
Proof.
  apply (plain_get_on_dict Customer_status "status"
           (plain (VDict [("name", VStr "Ada")]))
           [("name", VStr "Ada")]);
    try reflexivity.
  discriminate.
Defined.

(** X4: a getter reads one key of the payload: two non-empty dict
    payloads that agree on that key give the same result, whatever their
    other keys and whatever the customer. *)
Theorem getter_reads_one_key (g : getter) (k : string) (o o' : instance)
    (d d' : list (string * value)) (w : world) :
  payload_key g = Some k ->
  data o = VDict d -> data o' = VDict d' ->
  d <> [] -> d' <> [] ->
  Py.lookup k d = Py.lookup k d' ->
  fst (call g (Some o) w) = fst (call g (Some o') w).
Proof.
  intros Hk Hd Hd' Hne Hne' Hl.
  destruct g; try discriminate Hk; injection Hk as <-;
    cbn [call]; unfold_getters; unfold method;
    rewrite (obj_and_data_nonempty o d Hd Hne),
            (obj_and_data_nonempty o' d' Hd' Hne');
    match goal with
    | |- fst (?b1 ?s1) = fst (?b2 ?s2) =>
        transitivity (fst (b2 s1));
        [ run_getter; rewrite Hl; reflexivity
        | assert (Hr : respects same_table b2) by (repeat respects_step);
          exact (proj1 (Hr s1 s2 eq_refl)) ]
    end.
Qed.

Lemma getter_reads_one_key_witness :
  fst (call Price_billing_cycle
         (record_of (VDict [("billing_cycle",
                             VDict [("frequency", VInt 1); ("interval", VStr "year")])]))
         empty_world)
  = fst (call Price_billing_cycle
           (Some (of_customer "ctm_01"
                    (VDict [("name", VStr "Pro");
                            ("billing_cycle",
                             VDict [("frequency", VInt 1);
                                    ("interval", VStr "year")]);
                            ("status", VStr "active")])))
           empty_world).
Proof.
  apply (getter_reads_one_key Price_billing_cycle "billing_cycle"
           (plain (VDict [("billing_cycle",
                           VDict [("frequency", VInt 1); ("interval", VStr "year")])]))
           (of_customer "ctm_01"
              (VDict [("name", VStr "Pro");
                      ("billing_cycle",
                       VDict [("frequency", VInt 1);
                              ("interval", VStr "year")]);
                      ("status", VStr "active")]))
           _ _ empty_world eq_refl eq_refl eq_refl);
    try discriminate; reflexivity.
Defined.

(** ** Amounts *)

Lemma binary_round_aux_not_nan (s : bool) (m e : Z) (l : location) :
  0 <= m -> binary_round_aux Py.prec Py.emax s m e l <> S754_nan.
Proof.
  intro Hm. unfold binary_round_aux.
  destruct (shr_fexp_spec m e l Hm) as [_ Hm1].
  destruct (shr_fexp Py.prec Py.emax m e l) as [mrs1 e1]. simpl in Hm1.
  set (m1 := round_nearest_even (shr_m mrs1) (loc_of_shr_record mrs1)).
  assert (H1 : 0 <= m1).
  { pose proof (round_nearest_even_ge (shr_m mrs1) (loc_of_shr_record mrs1)).
    assert (0 <= shr_m mrs1)
      by (rewrite Hm1; apply Z.div_pos; [lia | apply Z.pow_pos_nonneg; lia]).
    unfold m1. lia. }
  destruct (shr_fexp_spec m1 e1 loc_Exact H1) as [_ Hm2].
  destruct (shr_fexp Py.prec Py.emax m1 e1 loc_Exact) as [mrs2 e2]. simpl in Hm2.
  assert (H2 : 0 <= shr_m mrs2)
    by (rewrite Hm2; apply Z.div_pos; [lia | apply Z.pow_pos_nonneg; lia]).
  destruct (shr_m mrs2) as [ | p | p]; try discriminate.
  - destruct (e2 <=? Py.emax - Py.prec); discriminate.
  - lia.
Qed.

Lemma SFdiv_core_binary_nonneg (a b q e : Z) (l : location) :
  0 <= a -> 0 < b ->
  SFdiv_core_binary Py.prec Py.emax a 0 b 0 = (q, e, l) -> 0 <= q.
Proof.
  intros Ha Hb. unfold SFdiv_core_binary.
  match goal with
  | |- (let '(_, _) := Z.div_eucl ?m _ in _) = _ -> _ =>
      assert (Hm : 0 <= m); [ | pose proof (Z_div_mod m b ltac:(lia)) as Hdiv;
                                destruct (Z.div_eucl m b) as [q0 r0] ]
  end.
  - match goal with |- 0 <= match ?s with _ => _ end => destruct s end;
      try lia. apply Z.shiftl_nonneg. lia.
  - intro H. inversion H. subst. nia.
Qed.

Lemma truediv_finite (a b : Z) (f : spec_float) :
  Py.truediv a b = Return f -> finite_float f.
Proof.
  unfold Py.truediv.
  destruct (b =? 0) eqn:Eb; [discriminate | ]. apply Z.eqb_neq in Eb.
  destruct (a =? 0); [intro H; inversion H; exact I | ].
  destruct (SFdiv_core_binary Py.prec Py.emax (Z.abs a) 0 (Z.abs b) 0)
    as [[q e] l] eqn:E.
  assert (Hq : 0 <= q)
    by (apply (SFdiv_core_binary_nonneg (Z.abs a) (Z.abs b) q e l); [lia | lia | exact E]).
  pose proof (binary_round_aux_not_nan (xorb (a <? 0) (b <? 0)) q e l Hq) as Hnan.
  destruct (binary_round_aux Py.prec Py.emax (xorb (a <? 0) (b <? 0)) q e l);
    intro H; inversion H; try exact I.
  now contradiction Hnan.
Qed.

(** X5: [payment_amount] returns the empty string or a float with a
    value, never an infinity or a NaN, on every object. *)
Theorem payment_amount_blank_or_finite (obj : option instance) (w : world) :
  fst (TransactionAdmin.payment_amount obj w) = Return (VStr "")
  \/ exists f, finite_float f
               /\ fst (TransactionAdmin.payment_amount obj w) = Return (VFloat f).
Proof.
  unfold TransactionAdmin.payment_amount, method.
  destruct (obj_and_data obj) as [d | ]; [ | now left].
  match goal with |- context [try_except ?c _ ?s0] =>
    set (inner := c); set (s := s0)
  end.
  destruct (try_except_ret_returns inner (VStr "") s) as [v Hv].
  rewrite Hv.
  destruct (try_except_ret_cases inner (VStr "") v s Hv) as [[-> _] | Hin];
    [now left | right].
  assert (Hk : returns_only (fun v => exists f, v = VFloat f /\ finite_float f) inner).
  { unfold inner.
    do 4 (apply returns_only_bind; intro).
    apply (returns_only_bind_with _ finite_float).
    - intros w0 f H. simpl in H. now apply (truediv_finite _ _ _ H).
    - intros f Hf. apply returns_only_ret. now exists f. }
  destruct (Hk s v Hin) as [f [-> Hf]]. now exists f.
Qed.

(** X6: on a payload whose [details.totals.total] [int] reads as an
    integer below [2^1000] in magnitude, [payment_amount] returns that
    integer divided by 100, as a float. *)
Theorem payment_amount_value (o : instance)
    (d details totals : list (string * value)) (total : value) (n : Z)
    (w : world) :
  data o = VDict d ->
  Py.lookup "details" d = Some (VDict details) ->
  Py.lookup "totals" details = Some (VDict totals) ->
  Py.lookup "total" totals = Some total ->
  Py.int total = Return n ->
  Z.abs n < 2 ^ 1000 ->
  exists q : spec_float,
    Py.truediv n 100 = Return q
    /\ fst (TransactionAdmin.payment_amount (Some o) w) = Return (VFloat q).
Proof.
  intros Hd Hdet Htot Ht Hn Hrange.
  destruct (truediv_in_range n Hrange) as [q Hq].
  exists q. split; [exact Hq | ].
  unfold TransactionAdmin.payment_amount, method.
  rewrite (obj_and_data_dict o d _ _ Hd Hdet).
  run_getter. rewrite Hdet, Htot, Ht, Hn, Hq. reflexivity.
Qed.

Lemma payment_amount_value_witness :
  exists q : spec_float,
    Py.truediv 250 100 = Return q
    /\ fst (TransactionAdmin.payment_amount
              (record_of (VDict [("details",
                                  VDict [("totals", VDict [("total", VInt 250)])])]))
              empty_world)
       = Return (VFloat q).
Proof.
  apply (payment_amount_value
           (plain (VDict [("details",
                           VDict [("totals", VDict [("total", VInt 250)])])]))
           [("details", VDict [("totals", VDict [("total", VInt 250)])])]
           [("totals", VDict [("total", VInt 250)])]
           [("total", VInt 250)] (VInt 250) 250 empty_world);
    reflexivity.
Defined.

(** X7: an amount [int] cannot read makes [unit_price] raise what [int]
    raises, and makes [payment_amount] return the empty string. *)
Theorem unreadable_amount (t : value) (e : exn) (o : instance)
    (d : list (string * value)) (w : world) :
  Py.int t = Raise e ->
  data o = VDict d ->
  (forall up : list (string * value),
      Py.lookup "unit_price" d = Some (VDict up) ->
      Py.lookup "amount" up = Some t ->
      fst (PriceAdmin.unit_price (Some o) w) = Raise e)
  /\ (forall details totals : list (string * value),
      Py.lookup "details" d = Some (VDict details) ->
      Py.lookup "totals" details = Some (VDict totals) ->
      Py.lookup "total" totals = Some t ->
      fst (TransactionAdmin.payment_amount (Some o) w) = Return (VStr "")).
Proof.
  intros Ht Hd. split.
  - intros up Hup Ha.
    unfold PriceAdmin.unit_price, method.
    rewrite (obj_and_data_dict o d _ _ Hd Hup).
    run_getter. rewrite Hup. rewrite (lookup_nonempty _ _ _ Ha).
    rewrite Ha, Ht. reflexivity.
  - intros details totals Hdet Htot Htotal.
    unfold TransactionAdmin.payment_amount, method.
    rewrite (obj_and_data_dict o d _ _ Hd Hdet).
    run_getter. rewrite Hdet, Htot, Htotal, Ht. reflexivity.
Qed.

Lemma unreadable_amount_witness :
  fst (PriceAdmin.unit_price
         (record_of (VDict [("unit_price",
                             VDict [("amount", VStr "12.50");
                                    ("currency_code", VStr "EUR")])]))
         empty_world)
  = Raise ValueError
  /\ fst (TransactionAdmin.payment_amount
            (record_of (VDict [("details",
                                VDict [("totals", VDict [("total", VStr "12.50")])])]))
            empty_world)
     = Return (VStr "").
Proof.
  split.
  - apply (proj1 (unreadable_amount (VStr "12.50") ValueError
                    (plain (VDict [("unit_price",
                                       VDict [("amount", VStr "12.50");
                                              ("currency_code", VStr "EUR")])])) _ empty_world eq_refl eq_refl)
             [("amount", VStr "12.50"); ("currency_code", VStr "EUR")]);
      reflexivity.
  - apply (proj2 (unreadable_amount (VStr "12.50") ValueError
                    (plain (VDict [("details",
                                       VDict [("totals",
                                               VDict [("total", VStr "12.50")])])])) _ empty_world eq_refl eq_refl)
             [("totals", VDict [("total", VStr "12.50")])]
             [("total", VStr "12.50")]);
      reflexivity.
Defined.

(** X8: the two amounts are converted alike: when [payment_amount]
    returns a float for a total, [unit_price] on the same value as amount
    returns that float as Python prints it, a space and the currency
    code, for a currency code that [str] can write. *)
Theorem amounts_agree (t c : value) (q : spec_float) (cs : string)
    (o o' : instance)
    (d details totals d' up : list (string * value)) (w : world) :
  data o = VDict d ->
  Py.lookup "details" d = Some (VDict details) ->
  Py.lookup "totals" details = Some (VDict totals) ->
  Py.lookup "total" totals = Some t ->
  data o' = VDict d' ->
  Py.lookup "unit_price" d' = Some (VDict up) ->
  Py.lookup "amount" up = Some t ->
  Py.lookup "currency_code" up = Some c ->
  Py.str c = Return cs ->
  fst (TransactionAdmin.payment_amount (Some o) w) = Return (VFloat q) ->
  fst (PriceAdmin.unit_price (Some o') w)
  = Return (VStr (append (Py.float_repr q) (append " " cs))).
Proof.
  intros Hd Hdet Htot Ht Hd' Hup Ha Hc Hcs Hpa.
  unfold TransactionAdmin.payment_amount, method in Hpa.
  rewrite (obj_and_data_dict o d _ _ Hd Hdet) in Hpa.
  revert Hpa. run_getter. rewrite Hdet, Htot, Ht.
  unfold PriceAdmin.unit_price, method.
  rewrite (obj_and_data_dict o' d' _ _ Hd' Hup).
  run_getter. rewrite Hup. rewrite (lookup_nonempty _ _ _ Ha). rewrite Ha.
  destruct (Py.int t) as [n | e]; [ | discriminate].
  destruct (Py.truediv n 100) as [q' | e]; [ | discriminate].
  intro H. inversion H. subst q'.
  assert (Hfq : Py.str (VFloat q) = Return (Py.float_repr q)) by reflexivity.
  rewrite Hfq, Hc, Hcs. reflexivity.
Qed.

Lemma amounts_agree_witness :
  fst (PriceAdmin.unit_price
         (record_of (VDict [("unit_price",
                             VDict [("amount", VInt 250);
                                    ("currency_code", VStr "EUR")])]))
         empty_world)
  = Return (VStr (append (Py.float_repr
                            (S754_finite false 5629499534213120 (-51)))
                         " EUR")).
Proof.
  apply (amounts_agree (VInt 250) (VStr "EUR")
           (S754_finite false 5629499534213120 (-51)) "EUR"
           (plain (VDict [("details",
                           VDict [("totals", VDict [("total", VInt 250)])])]))
           (plain (VDict [("unit_price",
                           VDict [("amount", VInt 250);
                                  ("currency_code", VStr "EUR")])]))
           _ [("totals", VDict [("total", VInt 250)])] [("total", VInt 250)]
           _ [("amount", VInt 250); ("currency_code", VStr "EUR")]
           empty_world eq_refl eq_refl eq_refl eq_refl eq_refl eq_refl eq_refl
           eq_refl eq_refl).
  vm_compute. reflexivity.
Defined.

(** ** Payments *)

(** X9: [payment_method] shows the card of the first payment, its type
    and its last four digits separated by a space, when [str] can write
    both, and the empty string when it cannot; later payments do not
    matter. *)
Theorem payment_method_first_card (o : instance) (d first details card : list (string * value))
    (later : list value) (type last4 : value) (w : world) :
  data o = VDict d ->
  Py.lookup "payments" d = Some (VList (VDict first :: later)) ->
  Py.lookup "method_details" first = Some (VDict details) ->
  Py.lookup "card" details = Some (VDict card) ->
  Py.lookup "type" card = Some type ->
  Py.lookup "last4" card = Some last4 ->
  fst (TransactionAdmin.payment_method (Some o) w)
  = Return (VStr (match Py.str type, Py.str last4 with
                  | Return t, Return l => append t (append " " l)
                  | _, _ => ""
                  end)).
Proof.
  intros Hd Hp Hm Hc Ht Hl.
  unfold TransactionAdmin.payment_method, method.
  rewrite (obj_and_data_dict o d _ _ Hd Hp).
  run_getter. rewrite Hp.
  rewrite getitem_int_first. cbv beta iota.
  rewrite Hm, Hc, Ht.
  destruct (Py.str type) as [t | e]; [ | reflexivity].
  cbv beta iota. rewrite ?Hp, ?getitem_int_first. cbv beta iota.
  rewrite ?Hm, ?Hc, Hl.
  destruct (Py.str last4) as [l | e]; reflexivity.
Qed.

Lemma payment_method_first_card_witness :
  fst (TransactionAdmin.payment_method
         (record_of (VDict [("payments",
            VList [VDict [("method_details",
                           VDict [("card", VDict [("type", VStr "visa");
                                                  ("last4", VStr "4242")])])];
                   VDict [("status", VStr "error")]])]))
         empty_world)
  = Return (VStr "visa 4242").
Proof.
  apply (payment_method_first_card
           (plain (VDict [("payments",
              VList [VDict [("method_details",
                             VDict [("card", VDict [("type", VStr "visa");
                                                    ("last4", VStr "4242")])])];
                     VDict [("status", VStr "error")]])]))
           _
           [("method_details",
             VDict [("card", VDict [("type", VStr "visa"); ("last4", VStr "4242")])])]
           [("card", VDict [("type", VStr "visa"); ("last4", VStr "4242")])]
           [("type", VStr "visa"); ("last4", VStr "4242")]
           [VDict [("status", VStr "error")]]
           (VStr "visa") (VStr "4242") empty_world eq_refl);
    reflexivity.
Defined.

(** X10: [date_paid] returns the [captured_at] of the first payment as it
    is stored; later payments do not matter. *)
Theorem date_paid_first_payment (o : instance) (d first : list (string * value))
    (later : list value) (captured_at : value) (w : world) :
  data o = VDict d ->
  Py.lookup "payments" d = Some (VList (VDict first :: later)) ->
  Py.lookup "captured_at" first = Some captured_at ->
  fst (TransactionAdmin.date_paid (Some o) w) = Return captured_at.
Proof.
  intros Hd Hp Hc.
  unfold TransactionAdmin.date_paid, method.
  rewrite (obj_and_data_dict o d _ _ Hd Hp).
  run_getter. rewrite Hp.
  rewrite getitem_int_first. cbv beta iota.
  rewrite Hc. reflexivity.
Qed.

Lemma date_paid_first_payment_witness :
  fst (TransactionAdmin.date_paid
         (record_of (VDict [("payments",
            VList [VDict [("captured_at", VStr "2024-03-01T10:00:00Z")];
                   VDict [("captured_at", VNone)]])]))
         empty_world)
  = Return (VStr "2024-03-01T10:00:00Z").
Proof.
  apply (date_paid_first_payment
           (plain (VDict [("payments",
                VList [VDict [("captured_at", VStr "2024-03-01T10:00:00Z")];
                       VDict [("captured_at", VNone)]])]))
           _ [("captured_at", VStr "2024-03-01T10:00:00Z")]
           [VDict [("captured_at", VNone)]]
           (VStr "2024-03-01T10:00:00Z") empty_world eq_refl);
    reflexivity.
Defined.

(** X11: a transaction without payments, the key missing or the list
    empty, has an empty payment method and an empty payment date. *)
Theorem no_payments_blank (o : instance) (d : list (string * value)) (w : world) :
  data o = VDict d ->
  Py.lookup "payments" d = None \/ Py.lookup "payments" d = Some (VList []) ->
  fst (TransactionAdmin.payment_method (Some o) w) = Return (VStr "")
  /\ fst (TransactionAdmin.date_paid (Some o) w) = Return (VStr "").
Proof.
  intros Hd H.
  unfold TransactionAdmin.payment_method, TransactionAdmin.date_paid, method,
    obj_and_data.
  rewrite Hd. destruct (Py.truthy (VDict d)); [ | now split].
  run_getter. destruct H as [H | H]; rewrite H; now split.
Qed.

Lemma no_payments_blank_witness :
  fst (TransactionAdmin.payment_method
         (record_of (VDict [("status", VStr "draft"); ("payments", VList [])]))
         empty_world) = Return (VStr "")
  /\ fst (TransactionAdmin.date_paid
            (record_of (VDict [("status", VStr "draft"); ("payments", VList [])]))
            empty_world) = Return (VStr "").
Proof.
  apply (no_payments_blank
           (plain (VDict [("status", VStr "draft"); ("payments", VList [])]))
           [("status", VStr "draft"); ("payments", VList [])] empty_world eq_refl).
  right. reflexivity.
Defined.

(** ** Optional objects of a price *)

(** X12: [billing_cycle], [trial_period] and [unit_price] return the empty
    string when their object is missing from the payload or is falsy
    ([None], an empty object). *)
Theorem optional_object_blank (g : getter) (k : string) (o : instance)
    (d : list (string * value)) (w : world) :
  formats_optional_object g = true ->
  payload_key g = Some k ->
  data o = VDict d ->
  Py.lookup k d = None
  \/ (exists v, Py.lookup k d = Some v /\ Py.truthy v = false) ->
  fst (call g (Some o) w) = Return (VStr "").
Proof.
  intros Hg Hk Hd H.
  destruct g; try discriminate Hg; injection Hk as <-; cbn [call];
    unfold PriceAdmin.billing_cycle, PriceAdmin.trial_period,
      PriceAdmin.unit_price, method, obj_and_data;
    rewrite Hd; (destruct (Py.truthy (VDict d)); [ | reflexivity]);
    run_getter;
    destruct H as [H | [v [H Hv]]]; rewrite H; try rewrite Hv; reflexivity.
Qed.

Lemma optional_object_blank_witness :
  fst (call Price_trial_period
         (record_of (VDict [("name", VStr "Pro"); ("trial_period", VNone)]))
         empty_world)
  = Return (VStr "").
Proof.
  apply (optional_object_blank Price_trial_period "trial_period"
           (plain (VDict [("name", VStr "Pro"); ("trial_period", VNone)]))
           [("name", VStr "Pro"); ("trial_period", VNone)] empty_world
           eq_refl eq_refl eq_refl).
  right. exists VNone. split; reflexivity.
Defined.

(** X13: on a payload with a trial_period object whose frequency and
    interval [str] can write, [trial_period] returns the two separated by
    a space. *)
Theorem trial_period_string (o : instance) (d tp : list (string * value))
    (frequency interval : value) (f i : string) (w : world) :
  data o = VDict d ->
  Py.lookup "trial_period" d = Some (VDict tp) ->
  Py.lookup "frequency" tp = Some frequency ->
  Py.lookup "interval" tp = Some interval ->
  Py.str frequency = Return f ->
  Py.str interval = Return i ->
  fst (PriceAdmin.trial_period (Some o) w)
  = Return (VStr (append f (append " " i))).
Proof.
  intros Hd Htp Hf Hi Hfs His.
  unfold PriceAdmin.trial_period, method.
  rewrite (obj_and_data_dict o d _ _ Hd Htp).
  run_getter. rewrite Htp.
  rewrite (lookup_nonempty _ _ _ Hf).
  rewrite Hf, Hfs, Hi, His. reflexivity.
Qed.

Lemma trial_period_string_witness :
  fst (PriceAdmin.trial_period
         (record_of (VDict [("trial_period",
                             VDict [("interval", VStr "day"); ("frequency", VInt 14)])]))
         empty_world)
  = Return (VStr "14 day").
Proof.
  apply (trial_period_string
           (plain (VDict [("trial_period",
                           VDict [("interval", VStr "day"); ("frequency", VInt 14)])]))
           _ [("interval", VStr "day"); ("frequency", VInt 14)]
           (VInt 14) (VStr "day") "14" "day" empty_world eq_refl);
    reflexivity.
Defined.

(** ** Products of a transaction *)

Lemma product_ids_of_items (items : list value) (ids : list string) :
  Forall2 item_names items ids ->
  omap (fun item =>
          obind (Py.getitem item "price") (fun price =>
          Py.getitem price "product_id")) items
  = Return (map VStr ids).
Proof.
  induction 1 as [ | item id items ids Hitem _ IH]; [reflexivity | ].
  destruct Hitem as [fields [price [-> [Hp Hid]]]].
  cbn [omap map]. unfold Py.getitem at 1. rewrite Hp.
  cbn [obind]. unfold Py.getitem at 1. rewrite Hid.
  cbn [obind]. rewrite IH. reflexivity.
Qed.

Lemma wanted_of_strings (ids : list string) :
  omap Py.str
    (filter (fun v => match v with VNone => false | _ => true end)
            (map VStr ids))
  = Return ids.
Proof.
  induction ids as [ | id ids IH]; [reflexivity | ].
  cbn [map filter omap]. rewrite IH. reflexivity.
Qed.

Lemma products_of_named_items (o : instance) (d : list (string * value))
    (items : list value) (ids : list string) (w : world) :
  data o = VDict d ->
  Py.lookup "items" d = Some (VList items) ->
  Forall2 item_names items ids ->
  fst (TransactionAdmin.products (Some o) w)
  = Return (VStr (names_of ids (Product_objects w))).
Proof.
  intros Hd Hitems Hnames.
  unfold TransactionAdmin.products, method.
  rewrite (obj_and_data_dict o d _ _ Hd Hitems).
  cbv beta iota delta [bind ret lift get Py.get fst snd]. rewrite Hitems.
  cbv beta iota delta [Py.iter].
  rewrite (product_ids_of_items items ids Hnames).
  cbv beta iota zeta delta [Product_objects_filter_id_in app].
  rewrite wanted_of_strings. reflexivity.
Qed.

Lemma names_of_same_ids (ids ids' : list string) (table : list Product.t) :
  (forall id, In id ids <-> In id ids') ->
  names_of ids table = names_of ids' table.
Proof.
  intro H. unfold names_of. do 3 f_equal.
  apply filter_ext. intro p.
  destruct (existsb (String.eqb (Product.id p)) ids) eqn:E;
    destruct (existsb (String.eqb (Product.id p)) ids') eqn:E';
    try reflexivity.
  - apply existsb_eqb_In in E. apply H in E. apply existsb_eqb_In in E.
    congruence.
  - apply existsb_eqb_In in E'. apply H in E'. apply existsb_eqb_In in E'.
    congruence.
Qed.

Lemma filter_no_ids (table : list Product.t) :
  filter (fun p => existsb (String.eqb (Product.id p)) []) table = [].
Proof. induction table as [ | p table IH]; simpl; [reflexivity | exact IH]. Qed.

Lemma insert_by_id_perm (p : Product.t) (l : list Product.t) :
  Permutation (insert_by_id p l) (p :: l).
Proof.
  induction l as [ | q t IH]; simpl; [reflexivity | ].
  destruct (String.leb (Product.id p) (Product.id q)); [reflexivity | ].
  rewrite IH. apply perm_swap.
Qed.

Lemma sort_by_id_perm (l : list Product.t) : Permutation (sort_by_id l) l.
Proof.
  induction l as [ | p t IH]; simpl; [reflexivity | ].
  rewrite insert_by_id_perm. now apply perm_skip.
Qed.

(** X14: for a transaction whose items each name a product through
    [item["price"]["product_id"]], [products] returns the names of the
    rows of the Product table whose key is one of those ids, each row
    once, separated by a comma and a space; the order of the names is
    that of the query, not that of the items. *)
Theorem products_names (o : instance) (d : list (string * value))
    (items : list value) (ids : list string) (w : world) :
  data o = VDict d ->
  Py.lookup "items" d = Some (VList items) ->
  Forall2 item_names items ids ->
  exists rows : list Product.t,
    Permutation rows
      (filter (fun p => existsb (String.eqb (Product.id p)) ids)
              (Product_objects w))
    /\ fst (TransactionAdmin.products (Some o) w)
       = Return (VStr (String.concat ", " (map Product.name rows))).
Proof.
  intros Hd Hitems Hnames.
  exists (sort_by_id
            (filter (fun p => existsb (String.eqb (Product.id p)) ids)
                    (Product_objects w))).
  split; [apply sort_by_id_perm | ].
  exact (products_of_named_items o d items ids w Hd Hitems Hnames).
Qed.

(** X15: the order of the items of a transaction and their repetition do
    not show in [products]: two transactions that name the same products
    get the same string. *)
Theorem products_same_ids (o o' : instance) (d d' : list (string * value))
    (items items' : list value) (ids ids' : list string) (w : world) :
  data o = VDict d -> data o' = VDict d' ->
  Py.lookup "items" d = Some (VList items) ->
  Py.lookup "items" d' = Some (VList items') ->
  Forall2 item_names items ids ->
  Forall2 item_names items' ids' ->
  (forall id, In id ids <-> In id ids') ->
  fst (TransactionAdmin.products (Some o) w)
  = fst (TransactionAdmin.products (Some o') w).
Proof.
  intros Hd Hd' Hi Hi' Hn Hn' Hsame.
  rewrite (products_of_named_items o d items ids w Hd Hi Hn).
  rewrite (products_of_named_items o' d' items' ids' w Hd' Hi' Hn').
  now rewrite (names_of_same_ids ids ids' _ Hsame).
Qed.

(** X16: [products] returns the empty string for a transaction without
    items, the key missing or the list empty, and for any transaction
    whose items name products when the Product table is empty. *)
Theorem products_blank (o : instance) (d : list (string * value)) (w : world) :
  data o = VDict d ->
  (Py.lookup "items" d = None \/ Py.lookup "items" d = Some (VList []) ->
   fst (TransactionAdmin.products (Some o) w) = Return (VStr ""))
  /\ (forall (items : list value) (ids : list string),
        Py.lookup "items" d = Some (VList items) ->
        Forall2 item_names items ids ->
        Product_objects w = [] ->
        fst (TransactionAdmin.products (Some o) w) = Return (VStr "")).
Proof.
  intro Hd. split.
  - intro H. unfold TransactionAdmin.products, method, obj_and_data.
    rewrite Hd. destruct (Py.truthy (VDict d)); [ | reflexivity].
    run_getter. destruct H as [H | H]; rewrite H;
      cbv beta iota zeta delta [Py.iter omap obind Product_objects_filter_id_in];
      cbn [filter omap]; rewrite filter_no_ids; reflexivity.
  - intros items ids Hi Hn Hw.
    rewrite (products_of_named_items o d items ids w Hd Hi Hn).
    rewrite Hw. reflexivity.
Qed.

Lemma item_for_names (id : string) : item_names (item_for id) id.
Proof.
  exists [("quantity", VInt 1); ("price", VDict [("product_id", VStr id)])],
         [("product_id", VStr id)].
  repeat split.
Qed.

Lemma products_names_witness :
  exists rows : list Product.t,
    Permutation rows
      [ {| Product.id := "pro_02"; Product.name := "Plus" |};
        {| Product.id := "pro_01"; Product.name := "Basic" |} ]
    /\ fst (TransactionAdmin.products
              (Some (transaction_of [item_for "pro_02"; item_for "pro_01"]))
              two_products)
       = Return (VStr (String.concat ", " (map Product.name rows))).
Proof.
  apply (products_names
           (transaction_of [item_for "pro_02"; item_for "pro_01"])
           _ [item_for "pro_02"; item_for "pro_01"] ["pro_02"; "pro_01"]
           two_products eq_refl eq_refl).
  repeat constructor; apply item_for_names.
Defined.

(** The sample of two products: the table holds Plus before Basic, the
    query gives Basic before Plus. *)
Example products_sample :
  fst (TransactionAdmin.products
         (Some (transaction_of [item_for "pro_02"; item_for "pro_01"]))
         two_products)
  = Return (VStr "Basic, Plus").
Proof. vm_compute. reflexivity. Qed.

Lemma products_same_ids_witness :
  fst (TransactionAdmin.products
         (Some (transaction_of [item_for "pro_02"; item_for "pro_01"; item_for "pro_02"]))
         two_products)
  = fst (TransactionAdmin.products
           (Some (transaction_of [item_for "pro_01"; item_for "pro_02"]))
           two_products).
Proof.
  apply (products_same_ids
           (transaction_of [item_for "pro_02"; item_for "pro_01"; item_for "pro_02"])
           (transaction_of [item_for "pro_01"; item_for "pro_02"])
           _ _ _ _ ["pro_02"; "pro_01"; "pro_02"] ["pro_01"; "pro_02"]
           two_products eq_refl eq_refl eq_refl eq_refl).
  - repeat constructor; apply item_for_names.
  - repeat constructor; apply item_for_names.
  - intro id. simpl. tauto.
Defined.

Lemma products_blank_witness :
  fst (TransactionAdmin.products (Some (transaction_of [])) two_products)
  = Return (VStr "")
  /\ fst (TransactionAdmin.products
            (Some (transaction_of [item_for "pro_01"])) empty_world)
     = Return (VStr "").
Proof.
  split.
  - apply (proj1 (products_blank (transaction_of []) _ two_products eq_refl)).
    right. reflexivity.
  - apply (proj2 (products_blank (transaction_of [item_for "pro_01"]) _
                    empty_world eq_refl)
             [item_for "pro_01"] ["pro_01"] eq_refl).
    + repeat constructor; apply item_for_names.
    + reflexivity.
Defined.

